(** * Poster pipeline of publish-helper: [src/core/poster.py]

    A shallow embedding of the four functions of the module
    ([get_poster_url_from_data], [download_poster], [process_poster],
    [get_poster_from_pt_gen_response]) together with the part of the Python
    runtime they touch: JSON-like values, the exception classes the handlers
    tell apart, a file system, standard output and the HTTP collaborator.

    Modelling boundary.
    - Exceptions are instances of Python's [Exception].  Asynchronous signals
      that only derive from [BaseException] (KeyboardInterrupt, SystemExit)
      are outside the model, and [print] is taken to be total.
    - A string is a sequence of characters of which only equality is used;
      the tags and separators the code looks for are ASCII.
    - Paths follow [posixpath].  The file system records, for a path as it
      is spelled, what it names; an operation is recorded at the path it is
      given and, for [os.makedirs], at the directories above it.  Other
      spellings of the same file (links, dot components, the current
      directory) are not followed: no statement says what a path that the
      code was not given holds afterwards.
    - The behaviour of the network, of the failures of the operating system,
      of [id] and of the uploader is not fixed: it is a record of oracles
      ([env]) over which every statement quantifies.  The oracles of the
      network and of [tempfile], asked at most once per run, do not see the
      world; the failure oracles of the file system and the uploader do. *)

From Stdlib Require Import ZArith String Ascii List Strings.Byte DecimalString SpecFloat Lia.
From stdpp Require Import gmap strings list fin_maps.

Local Open Scope string_scope.
Local Open Scope Z_scope.

(** ** Python strings *)

Module PyStr.

Fixpoint drop_chars (n : nat) (s : string) : string :=
  match n, s with
  | O, _ => s
  | S n', String _ t => drop_chars n' t
  | S _, EmptyString => EmptyString
  end.

Fixpoint take_chars (n : nat) (s : string) : string :=
  match n, s with
  | O, _ => EmptyString
  | S n', String c t => String c (take_chars n' t)
  | S _, EmptyString => EmptyString
  end.

Definition len (s : string) : Z := Z.of_nat (String.length s).

(** Index normalisation of a slice bound: negative bounds count from the
    end, and the result is clamped to [0, len]. *)
Definition clamp_index (i : Z) (s : string) : Z :=
  let j := if i <? 0 then i + len s else i in
  Z.max 0 (Z.min j (len s)).

(** [s[a:b]] *)
Definition slice (a b : Z) (s : string) : string :=
  let lo := clamp_index a s in
  let hi := clamp_index b s in
  take_chars (Z.to_nat (hi - lo)) (drop_chars (Z.to_nat lo) s).

(** [s.startswith(p)] *)
Definition startswith (p s : string) : bool := String.prefix p s.

(** [s.endswith(q)] *)
Definition endswith (q s : string) : bool :=
  (String.length q <=? String.length s)%nat
  && String.eqb (drop_chars (String.length s - String.length q) s) q.

(** [needle in hay] on two strings: substring test. *)
Fixpoint contains (needle hay : string) : bool :=
  String.prefix needle hay
  || match hay with
     | EmptyString => false
     | String _ t => contains needle t
     end.

(** [s.rfind(c)]: index of the last occurrence, [-1] when there is none. *)
Fixpoint rfind_from (c : ascii) (s : string) (i best : Z) : Z :=
  match s with
  | EmptyString => best
  | String a t => rfind_from c t (i + 1) (if Ascii.eqb a c then i else best)
  end.

Definition rfind (c : ascii) (s : string) : Z := rfind_from c s 0 (-1).

(** [s == c * len(s)] *)
Fixpoint all_char (c : ascii) (s : string) : bool :=
  match s with
  | EmptyString => true
  | String a t => Ascii.eqb a c && all_char c t
  end.

(** [s.rstrip(c)] for a one-character set. *)
Fixpoint rstrip (c : ascii) (s : string) : string :=
  match s with
  | EmptyString => EmptyString
  | String a t =>
      match rstrip c t with
      | EmptyString => if Ascii.eqb a c then EmptyString else String a EmptyString
      | t' => String a t'
      end
  end.

(** Decimal rendering of an integer inside an f-string. *)
Definition of_int (z : Z) : string := NilZero.string_of_int (Z.to_int z).

Definition nonempty (s : string) : bool :=
  match s with EmptyString => false | _ => true end.

(** The double-quote character, as a one-character string. *)
Definition dquote : string := String (ascii_of_nat 34) EmptyString.

End PyStr.

(** ** [posixpath] *)

Module PosixPath.

Definition sep : ascii := "/"%char.

(** [os.path.dirname] *)
Definition dirname (p : string) : string :=
  let i := PyStr.rfind sep p + 1 in
  let head := PyStr.slice 0 i p in
  if PyStr.nonempty head && negb (PyStr.all_char sep head)
  then PyStr.rstrip sep head
  else head.

(** [os.path.split] *)
Definition split (p : string) : string * string :=
  let i := PyStr.rfind sep p + 1 in
  let head := PyStr.slice 0 i p in
  let tail := PyStr.slice i (PyStr.len p) p in
  (if PyStr.nonempty head && negb (PyStr.all_char sep head)
   then PyStr.rstrip sep head
   else head,
   tail).

(** The head and tail [os.makedirs] works with: those of [name], or those
    of its head when [name] ends with a separator. *)
Definition split_name (name : string) : string * string :=
  let ht := split name in
  if PyStr.nonempty ht.2 then ht else split ht.1.

(** The directories above [name] that [os.makedirs] may visit, the closest
    first.  Each is shorter than the one before, so the length of [name] is
    fuel enough. *)
Fixpoint parents_fuel (fuel : nat) (name : string) : list string :=
  match fuel with
  | O => []
  | S fuel' =>
      let ht := split_name name in
      if PyStr.nonempty ht.1 && PyStr.nonempty ht.2
      then ht.1 :: parents_fuel fuel' ht.1
      else []
  end.

Definition parents (name : string) : list string :=
  parents_fuel (String.length name) name.

(** The path names a directory by its spelling alone: it ends with a
    separator or with a dot component. *)
Definition names_directory (p : string) : bool :=
  PyStr.endswith "/" p
  || String.eqb p "." || String.eqb p ".."
  || PyStr.endswith "/." p || PyStr.endswith "/.." p.

(** [os.path.join(a, b)] with one component to add. *)
Definition join (a b : string) : string :=
  if PyStr.startswith "/" b then b
  else if negb (PyStr.nonempty a) || PyStr.endswith "/" a then a +:+ b
  else a +:+ "/" +:+ b.

End PosixPath.

(** ** Values of a decoded response *)

#[warnings="-register-all"]
Inductive pyval : Type :=
  | PNone
  | PBool (b : bool)
  | PInt (z : Z)
  | PFloat (f : spec_float)
  | PStr (s : string)
  | PList (l : list pyval)
  | PDict (d : gmap string pyval).

(** Truth value of an object, as tested by [if], [and] and [not]. *)
Definition truthy (v : pyval) : bool :=
  match v with
  | PNone => false
  | PBool b => b
  | PInt z => negb (z =? 0)
  | PFloat f => match f with S754_zero _ => false | _ => true end
  | PStr s => PyStr.nonempty s
  | PList l => match l with [] => false | _ => true end
  | PDict d => match map_to_list d with [] => false | _ => true end
  end.

Definition type_name (v : pyval) : string :=
  match v with
  | PNone => "NoneType"
  | PBool _ => "bool"
  | PInt _ => "int"
  | PFloat _ => "float"
  | PStr _ => "str"
  | PList _ => "list"
  | PDict _ => "dict"
  end.

(** ** Exceptions *)

(** The classes the handlers of the module distinguish.  [requests.Timeout]
    derives from [requests.RequestException], which derives from [IOError];
    everything derives from [Exception]. *)
Inductive exn_class : Type :=
  | Timeout
  | RequestException
  | IOError
  | TypeError
  | KeyError
  | Exception.

Definition issubclass (c parent : exn_class) : bool :=
  match parent, c with
  | Exception, _ => true
  | Timeout, Timeout => true
  | RequestException, (Timeout | RequestException) => true
  | IOError, (Timeout | RequestException | IOError) => true
  | TypeError, TypeError => true
  | KeyError, KeyError => true
  | _, _ => false
  end.

(** An exception object: its class and [str(e)]. *)
Record exn : Type := MkExn { exn_cls : exn_class; exn_msg : string }.

Inductive result (A : Type) : Type :=
  | Ret (a : A)
  | Raise (e : exn).
Arguments Ret {A} a.
Arguments Raise {A} e.

(** [key in container] for a string key. *)
Definition py_contains (key : string) (container : pyval) : result bool :=
  match container with
  | PDict d => Ret (match d !! key with Some _ => true | None => false end)
  | PStr s => Ret (PyStr.contains key s)
  | PList l =>
      Ret (existsb (fun x => match x with PStr s => String.eqb s key | _ => false end) l)
  | other =>
      Raise (MkExn TypeError
               ("argument of type '" +:+ type_name other +:+ "' is not iterable"))
  end.

(** [container[key]] for a string key. *)
Definition py_getitem (container : pyval) (key : string) : result pyval :=
  match container with
  | PDict d =>
      match d !! key with
      | Some v => Ret v
      | None => Raise (MkExn KeyError ("'" +:+ key +:+ "'"))
      end
  | PStr _ => Raise (MkExn TypeError "string indices must be integers, not 'str'")
  | PList _ => Raise (MkExn TypeError "list indices must be integers or slices, not str")
  | other =>
      Raise (MkExn TypeError ("'" +:+ type_name other +:+ "' object is not subscriptable"))
  end.

(** ** The world: file system, standard output, network log *)

Inductive node : Type :=
  | File (content : list byte)
  | Dir.

(** A piece of a printed f-string: literal text or an interpolated object. *)
Inductive frag : Type :=
  | Lit (s : string)
  | Val (v : pyval).

Record request : Type := MkRequest {
  req_url : pyval;
  req_headers : list (string * string);
  req_timeout : Z;
  req_stream : bool
}.

Record response : Type := MkResponse {
  status_code : Z;
  (** chunks yielded by [iter_content], and the exception that ends the
      stream early, if any *)
  body_chunks : list (list byte);
  body_error : option exn
}.

Record world : Type := MkWorld {
  fs : gmap string node;
  stdout : list (list frag);
  requests_log : list request
}.

Definition set_fs (f : gmap string node) (w : world) : world :=
  MkWorld f (stdout w) (requests_log w).

(** ** A state-and-exception monad *)

Definition M (A : Type) : Type := world → result A * world.

#[global] Instance M_ret : MRet M := λ A a w, (Ret a, w).
#[global] Instance M_bind : MBind M := λ A B f m w,
  match m w with
  | (Ret a, w') => f a w'
  | (Raise e, w') => (Raise e, w')
  end.

Definition raise {A} (e : exn) : M A := λ w, (Raise e, w).

Definition lift {A} (r : result A) : M A := λ w, (r, w).

(** [try: body except Exception as e: handler(e)] *)
Definition try_except {A} (body : M A) (handler : exn → M A) : M A := λ w,
  match body w with
  | (Ret a, w') => (Ret a, w')
  | (Raise e, w') => handler e w'
  end.

(** [try: body finally: fin]; an exception raised by [fin] replaces the
    outcome of [body]. *)
Definition try_finally {A} (body : M A) (fin : M unit) : M A := λ w,
  match body w with
  | (r, w') =>
      match fin w' with
      | (Ret _, w'') => (r, w'')
      | (Raise e, w'') => (Raise e, w'')
      end
  end.

Definition print (line : list frag) : M unit := λ w,
  (Ret tt, MkWorld (fs w) (stdout w ++ [line]) (requests_log w)).

(** ** The environment *)

Record env : Type := MkEnv {
  (** outcome of [requests.get] *)
  requests_get : request → result response;
  (** failures of the operating system that the file-system model does not
      decide itself (permissions, full disk, a file in the way further up,
      ...); a failing [os.makedirs] also says how many of the missing
      directories it had created *)
  makedirs_fault : string → world → option (exn * nat);
  open_fault : string → world → option exn;
  write_fault : string → list byte → world → option exn;
  remove_fault : string → world → option exn;
  (** [tempfile.gettempdir()] *)
  gettempdir : result string;
  (** [id(obj)] *)
  id_of : pyval → N;
  (** [src.core.picturebed.upload_picture], imported by the module and not
      defined in it: an opaque call with a (bool, string) result, free to
      raise and to change the world *)
  upload_picture : string → string → string → M (bool * string)
}.

Module Os.

(** [os.path.exists(path)] *)
Definition exists_ (path : string) (w : world) : bool :=
  match fs w !! path with Some _ => true | None => false end.

(** One [mkdir] per name, in order, where nothing exists yet. *)
Fixpoint mkdirs (names : list string) (f : gmap string node) : gmap string node :=
  match names with
  | [] => f
  | name :: rest =>
      mkdirs rest (match f !! name with None => <[name := Dir]> f | Some _ => f end)
  end.

(** The directories above that do not exist, up to the first that does. *)
Fixpoint missing_above (heads : list string) (w : world) : list string :=
  match heads with
  | [] => []
  | head :: rest => if exists_ head w then [] else head :: missing_above rest w
  end.

(** [os.makedirs(name, exist_ok=True)].  The empty name is refused by the
    system call.  Otherwise the missing directories above [name] are
    created, the outermost first, then [name] itself: an existing directory
    is accepted, an existing file is not.  When the oracle makes the call
    fail, the directories created so far stay. *)
Definition makedirs (E : env) (name : string) : M unit := λ w,
  if negb (PyStr.nonempty name)
  then (Raise (MkExn IOError "[Errno 2] No such file or directory: ''"), w)
  else
    let above := rev (missing_above (PosixPath.parents name) w) in
    match makedirs_fault E name w with
    | Some (e, n) => (Raise e, set_fs (mkdirs (firstn n (above ++ [name])) (fs w)) w)
    | None =>
        match fs w !! name with
        | Some (File _) =>
            (Raise (MkExn IOError ("[Errno 17] File exists: '" +:+ name +:+ "'")),
             set_fs (mkdirs above (fs w)) w)
        | _ => (Ret tt, set_fs (mkdirs (above ++ [name]) (fs w)) w)
        end
    end.

(** [open(path, 'wb')]: creates or truncates the file.  The empty path, a
    path that names a directory, an existing directory, and a path below a
    file or below nothing are refused. *)
Definition open_wb (E : env) (path : string) : M unit := λ w,
  let parent := PosixPath.dirname path in
  if negb (PyStr.nonempty path)
  then (Raise (MkExn IOError "[Errno 2] No such file or directory: ''"), w)
  else if PyStr.endswith "/" path
  then (Raise (MkExn IOError ("[Errno 21] Is a directory: '" +:+ path +:+ "'")), w)
  else
    match (if PyStr.nonempty parent then fs w !! parent else Some Dir) with
    | None =>
        (Raise (MkExn IOError ("[Errno 2] No such file or directory: '" +:+ path +:+ "'")), w)
    | Some (File _) =>
        (Raise (MkExn IOError ("[Errno 20] Not a directory: '" +:+ path +:+ "'")), w)
    | Some Dir =>
        if PosixPath.names_directory path
        then (Raise (MkExn IOError ("[Errno 21] Is a directory: '" +:+ path +:+ "'")), w)
        else
          match open_fault E path w with
          | Some e => (Raise e, w)
          | None =>
              match fs w !! path with
              | Some Dir =>
                  (Raise (MkExn IOError ("[Errno 21] Is a directory: '" +:+ path +:+ "'")), w)
              | _ => (Ret tt, set_fs (<[path := File []]> (fs w)) w)
              end
          end
    end.

(** [f.write(chunk)] on the file opened at [path]. *)
Definition write (E : env) (path : string) (chunk : list byte) : M unit := λ w,
  match write_fault E path chunk w with
  | Some e => (Raise e, w)
  | None =>
      match fs w !! path with
      | Some (File c) => (Ret tt, set_fs (<[path := File (c ++ chunk)]> (fs w)) w)
      | _ => (Ret tt, w)
      end
  end.

(** [os.remove(path)] *)
Definition remove (E : env) (path : string) : M unit := λ w,
  match remove_fault E path w with
  | Some e => (Raise e, w)
  | None =>
      match fs w !! path with
      | Some (File _) => (Ret tt, set_fs (delete path (fs w)) w)
      | Some Dir =>
          (Raise (MkExn IOError ("[Errno 21] Is a directory: '" +:+ path +:+ "'")), w)
      | None =>
          (Raise (MkExn IOError ("[Errno 2] No such file or directory: '" +:+ path +:+ "'")), w)
      end
  end.

End Os.

(** ** [get_poster_url_from_data] *)

Definition possible_fields : list string :=
  ["poster"; "img"; "image"; "cover"; "posterUrl"].

(** [for field in fields: <body>] where the body may [return]: [Some v]
    returns [v] from the function, [None] goes on with the next field;
    [orelse] is the code after the loop. *)
Fixpoint for_fields (fields : list string) (body : string → M (option pyval))
    (orelse : M pyval) : M pyval :=
  match fields with
  | [] => orelse
  | field :: rest =>
      r ← body field;
      match r with
      | Some v => mret v
      | None => for_fields rest body orelse
      end
  end.

(** [if field in c and c[field]: poster_url = c[field]; print(...); return
    poster_url] *)
Definition check_field (c : pyval) (where_ : string) (field : string) : M (option pyval) :=
  present ← lift (py_contains field c);
  if (present : bool) then
    v ← lift (py_getitem c field);
    if truthy v then
      poster_url ← lift (py_getitem c field);
      print [Lit where_; Lit field; Lit PyStr.dquote; Lit ": "; Val poster_url];;
      mret (Some poster_url)
    else mret None
  else mret None.

Definition get_poster_url_from_data (data : gmap string pyval) : M pyval :=
  for_fields possible_fields
    (check_field (PDict data) ("Found poster URL in field " +:+ PyStr.dquote))
    (in_data ← lift (py_contains "data" (PDict data));
     if (in_data : bool) then
       for_fields possible_fields
         (λ field,
            nested ← lift (py_getitem (PDict data) "data");
            check_field nested ("Found poster URL in nested field " +:+ PyStr.dquote +:+ "data.") field)
         (print [Lit "No poster URL found in PT-Gen response"];; mret (PStr ""))
     else
       print [Lit "No poster URL found in PT-Gen response"];; mret (PStr "")).

(** ** [download_poster] *)

(** Headers sent with the download request. *)
Definition headers : list (string * string) :=
  [ ("User-Agent",
     "Mozilla/5.0 (Macintosh; Intel Mac OS X 10_15_7) AppleWebKit/537.36 (KHTML, like Gecko) Chrome/143.0.0.0 Safari/537.36");
    ("Accept", "image/avif,image/webp,image/apng,image/svg+xml,image/*,*/*;q=0.8");
    ("Accept-Language", "en-US,en;q=0.9,zh-CN;q=0.8,zh-TW;q=0.7,zh;q=0.6");
    ("Referer", "https://movie.douban.com/");
    ("Cache-Control", "no-cache");
    ("Pragma", "no-cache");
    ("Sec-Fetch-Dest", "image");
    ("Sec-Fetch-Mode", "no-cors");
    ("Sec-Fetch-Site", "cross-site") ].

(** [requests.get(url, headers=headers, timeout=30, stream=True)]: the
    request is recorded, then the environment decides its outcome. *)
Definition http_get (E : env) (req : request) : M response := λ w,
  (requests_get E req, MkWorld (fs w) (stdout w) (requests_log w ++ [req])).

(** [for chunk in chunks: if chunk: f.write(chunk)] *)
Fixpoint write_chunks (E : env) (path : string) (chunks : list (list byte)) : M unit :=
  match chunks with
  | [] => mret tt
  | chunk :: rest =>
      (match chunk with
       | [] => mret tt
       | _ => Os.write E path chunk
       end);;
      write_chunks E path rest
  end.

(** The body of the [try] block, lines 57-91. *)
Definition download_poster_try (E : env) (poster_url : pyval) (save_path : string)
    : M (bool * string) :=
  if negb (truthy poster_url) then mret (false, "Poster URL is empty")
  else
    print [Lit "Starting poster download from: "; Val poster_url];;
    response ← http_get E (MkRequest poster_url headers 30 true);
    if negb (status_code response =? 200) then
      mret (false, "Failed to download poster, status code: "
                   +:+ PyStr.of_int (status_code response))
    else
      Os.makedirs E (PosixPath.dirname save_path);;
      Os.open_wb E save_path;;
      write_chunks E save_path (body_chunks response);;
      (match body_error response with
       | Some e => raise e
       | None => mret tt
       end);;
      print [Lit "Poster downloaded successfully to: "; Lit save_path];;
      mret (true, save_path).

(** The [except] clauses, tried in order, lines 93-107. *)
Definition download_poster_except (e : exn) : M (bool * string) :=
  if issubclass (exn_cls e) Timeout then
    print [Lit "Poster download timeout"];;
    mret (false, "Poster download timeout (30s)")
  else if issubclass (exn_cls e) RequestException then
    print [Lit "Poster download request error: "; Lit (exn_msg e)];;
    mret (false, "Poster download request error: " +:+ exn_msg e)
  else if issubclass (exn_cls e) IOError then
    print [Lit "Failed to save poster file: "; Lit (exn_msg e)];;
    mret (false, "Failed to save poster file: " +:+ exn_msg e)
  else
    print [Lit "Unexpected error during poster download: "; Lit (exn_msg e)];;
    mret (false, "Unexpected error: " +:+ exn_msg e).

Definition download_poster (E : env) (poster_url : pyval) (save_path : string)
    : M (bool * string) :=
  try_except (download_poster_try E poster_url save_path) download_poster_except.

(** ** [process_poster] *)

(** [upload_result[5:-6]] when the result is bracketed, else the result. *)
Definition unwrap_bbcode (upload_result : string) : string :=
  if PyStr.startswith "[img]" upload_result && PyStr.endswith "[/img]" upload_result
  then PyStr.slice 5 (-6) upload_result
  else upload_result.

(** Lines 138-142: the assignment to [temp_file_path]. *)
Definition resolve_temp_file_path (E : env) (poster_url : pyval)
    (temp_dir : option string) : M string :=
  temp_dir ← (match temp_dir with
              | None => lift (gettempdir E)
              | Some d => mret d
              end : M string);
  mret (PosixPath.join temp_dir
          ("poster_" +:+ PyStr.of_int (Z.of_N (id_of E poster_url)) +:+ ".jpg")).

(** Lines 144-174: the rest of the [try] block, once [temp_file_path] is
    assigned. *)
Definition process_poster_try (E : env) (poster_url : pyval)
    (picture_bed_api_url picture_bed_api_token temp_file_path : string)
    : M (bool * string) :=
  print [Lit "=== Starting poster processing ==="];;
  print [Lit "Poster URL: "; Val poster_url];;
  print [Lit "Temp file path: "; Lit temp_file_path];;
  '(download_success, download_result) ← download_poster E poster_url temp_file_path;
  if negb download_success then
    mret (false, "Failed to download poster: " +:+ download_result)
  else
    print [Lit "Uploading poster to image hosting service..."];;
    '(upload_success, upload_result) ←
      upload_picture E picture_bed_api_url picture_bed_api_token temp_file_path;
    if negb upload_success then
      mret (false, "Failed to upload poster: " +:+ upload_result)
    else
      print [Lit "Poster uploaded successfully: "; Lit upload_result];;
      mret (true, unwrap_bbcode upload_result).

(** Lines 176-178. *)
Definition process_poster_except (e : exn) : M (bool * string) :=
  print [Lit "Error during poster processing: "; Lit (exn_msg e)];;
  mret (false, "Error during poster processing: " +:+ exn_msg e).

(** Lines 180-187: the [finally] block; [temp_file_path] is [None] when the
    assignment was not reached. *)
Definition process_poster_finally (E : env) (temp_file_path : option string) : M unit :=
  match temp_file_path with
  | Some p =>
      λ w,
        if PyStr.nonempty p && Os.exists_ p w then
          try_except
            (Os.remove E p;;
             print [Lit "Temporary poster file deleted: "; Lit p])
            (λ e, print [Lit "Warning: Failed to delete temporary poster file: ";
                         Lit (exn_msg e)])
            w
        else (Ret tt, w)
  | None => mret tt
  end.

Definition process_poster (E : env) (poster_url : pyval)
    (picture_bed_api_url picture_bed_api_token : string) (temp_dir : option string)
    : M (bool * string) := λ w,
  match resolve_temp_file_path E poster_url temp_dir w with
  | (Raise e, w1) =>
      try_finally (process_poster_except e) (process_poster_finally E None) w1
  | (Ret temp_file_path, w1) =>
      try_finally
        (try_except
           (process_poster_try E poster_url picture_bed_api_url picture_bed_api_token
              temp_file_path)
           process_poster_except)
        (process_poster_finally E (Some temp_file_path)) w1
  end.

(** ** [get_poster_from_pt_gen_response] *)

Definition get_poster_from_pt_gen_response (E : env) (pt_gen_data : gmap string pyval)
    (picture_bed_api_url picture_bed_api_token : string) (temp_dir : option string)
    : M (bool * string) :=
  poster_url ← get_poster_url_from_data pt_gen_data;
  if negb (truthy poster_url) then
    mret (false, "No poster URL found in PT-Gen response")
  else
    process_poster E poster_url picture_bed_api_url picture_bed_api_token temp_dir.

(** ** Vocabulary of the specification *)

(** Key [k] is present in [d] with a truthy value. *)
Definition present_truthy (d : gmap string pyval) (k : string) : bool :=
  match d !! k with
  | Some v => truthy v
  | None => false
  end.

(** The failure causes the downloader tells apart. *)
Inductive failure_cause : Type :=
  | CauseTimeout
  | CauseRequest
  | CauseLocalIO
  | CauseOther.

Definition cause_of (c : exn_class) : failure_cause :=
  match c with
  | Timeout => CauseTimeout
  | RequestException => CauseRequest
  | IOError => CauseLocalIO
  | TypeError | KeyError | Exception => CauseOther
  end.

Definition cause_message (e : exn) : string :=
  match cause_of (exn_cls e) with
  | CauseTimeout => "Poster download timeout (30s)"
  | CauseRequest => "Poster download request error: " +:+ exn_msg e
  | CauseLocalIO => "Failed to save poster file: " +:+ exn_msg e
  | CauseOther => "Unexpected error: " +:+ exn_msg e
  end.

(** The environment [E] with another oracle for the failures of
    [os.remove]. *)
Definition with_remove_fault (f : string → world → option exn) (E : env) : env :=
  MkEnv (requests_get E) (makedirs_fault E) (open_fault E) (write_fault E) f
        (gettempdir E) (id_of E) (upload_picture E).

(** The world after one more printed line. *)
Definition logged (line : list frag) (w : world) : world := (print line w).2.

(** The world in which [process_poster] calls the downloader: the three
    opening lines have been printed. *)
Definition at_download (poster_url : pyval) (temp_file_path : string) (w : world) : world :=
  logged [Lit "Temp file path: "; Lit temp_file_path]
    (logged [Lit "Poster URL: "; Val poster_url]
       (logged [Lit "=== Starting poster processing ==="] w)).

(** The world in which [process_poster] calls the uploader, given the one
    the downloader left. *)
Definition at_upload (w : world) : world :=
  logged [Lit "Uploading poster to image hosting service..."] w.

(** Both tests of line 169. *)
Definition bracketed (upload_result : string) : bool :=
  PyStr.startswith "[img]" upload_result && PyStr.endswith "[/img]" upload_result.

(** The line printed when the temporary file cannot be deleted. *)
Definition cleanup_warning (e : exn) : list frag :=
  [Lit "Warning: Failed to delete temporary poster file: "; Lit (exn_msg e)].

(** The environment [E] with another uploader. *)
Definition with_upload_picture (u : string → string → string → M (bool * string))
    (E : env) : env :=
  MkEnv (requests_get E) (makedirs_fault E) (open_fault E) (write_fault E)
        (remove_fault E) (gettempdir E) (id_of E) u.

(** Relations between the world before and the world after. *)

(** Only standard output may differ. *)
Definition same_io (w w' : world) : Prop :=
  fs w' = fs w ∧ requests_log w' = requests_log w.

(** The request log is the same. *)
Definition same_log (w w' : world) : Prop :=
  requests_log w' = requests_log w.

(** Both are files or both are directories. *)
Definition same_kind (n n' : node) : bool :=
  match n, n' with
  | File _, File _ => true
  | Dir, Dir => true
  | _, _ => false
  end.

(** Every path that names something still names something of the same
    kind. *)
Definition nothing_lost (w w' : world) : Prop :=
  ∀ q n, fs w !! q = Some n → ∃ n', fs w' !! q = Some n' ∧ same_kind n n' = true.

(** Every run of [m] relates the world it starts in to the one it leaves. *)
Definition preserves (R : world → world → Prop) {A} (m : M A) : Prop :=
  ∀ w, R w (m w).2.


(** ** Sample environments and responses *)

Module Sample.

Definition w0 : world := MkWorld ∅ [] [].

Definition ok_response : response :=
  MkResponse 200 [[x89; x50]; []; [x4e; x47]] None.

(** Everything works; the uploader answers with the given string. *)
Definition env_ok (upload_result : string) : env :=
  MkEnv (λ _, Ret ok_response) (λ _ _, None) (λ _ _, None) (λ _ _ _, None)
        (λ _ _, None) (Ret "/tmp") (λ _, 42%N)
        (λ _ _ _ w, (Ret (true, upload_result), w)).

(** The server answers with the given status. *)
Definition env_status (code : Z) : env :=
  MkEnv (λ _, Ret (MkResponse code [] None)) (λ _ _, None) (λ _ _, None)
        (λ _ _ _, None) (λ _ _, None) (Ret "/tmp") (λ _, 42%N)
        (λ _ _ _ w, (Ret (true, "[img]http://cdn/x.jpg[/img]"), w)).

(** The request raises the given exception. *)
Definition env_get_raises (e : exn) : env :=
  MkEnv (λ _, Raise e) (λ _ _, None) (λ _ _, None) (λ _ _ _, None)
        (λ _ _, None) (Ret "/tmp") (λ _, 42%N)
        (λ _ _ _ w, (Ret (true, "[img]http://cdn/x.jpg[/img]"), w)).


(** There is no usable temporary directory. *)
Definition env_no_tempdir : env :=
  MkEnv (λ _, Ret ok_response) (λ _ _, None) (λ _ _, None) (λ _ _ _, None)
        (λ _ _, None)
        (Raise (MkExn IOError "[Errno 2] No usable temporary directory found"))
        (λ _, 42%N)
        (λ _ _ _ w, (Ret (true, "[img]http://cdn/x.jpg[/img]"), w)).

(** A world with a file left at the temporary path by an earlier run. *)
Definition w_stale : world :=
  MkWorld {[ "/tmp/poster_42.jpg" := File [x00]; "/tmp" := Dir;
             "/home/u/notes.txt" := File [x01] ]} [] [].

(** The temporary file cannot be deleted (say, it is locked). *)
Definition env_locked : env :=
  with_remove_fault
    (λ path _, Some (MkExn IOError ("[Errno 13] Permission denied: '" +:+ path +:+ "'")))
    (env_ok "[img]http://cdn/x.jpg[/img]").

Definition nested_cover : gmap string pyval :=
  {[ "data" := PDict {[ "cover" := PStr "http://a/b.jpg" ]} ]}.

Definition null_data : gmap string pyval := {[ "data" := PNone ]}.

End Sample.

(** * Properties *)

(** ** Strings *)

Section PyStrFacts.

Lemma length_app (a b : string) :
  String.length (a +:+ b) = (String.length a + String.length b)%nat.
Proof. induction a as [|c a IH]; simpl; [reflexivity | now rewrite IH]. Qed.

Lemma take_drop (n : nat) (s : string) :
  PyStr.take_chars n s +:+ PyStr.drop_chars n s = s.
Proof.
  revert s; induction n as [|n IH]; intros s; [reflexivity|].
  destruct s as [|c s]; [reflexivity|].
  change (String c (PyStr.take_chars n s +:+ PyStr.drop_chars n s) = String c s).
  now rewrite IH.
Qed.

Lemma drop_app_length (a b : string) :
  PyStr.drop_chars (String.length a) (a +:+ b) = b.
Proof. induction a as [|c a IH]; simpl; [now destruct b | exact IH]. Qed.

Lemma take_app_length (a b : string) :
  PyStr.take_chars (String.length a) (a +:+ b) = a.
Proof. induction a as [|c a IH]; simpl; [reflexivity | now rewrite IH]. Qed.

Lemma drop_length_ge (n : nat) (s : string) :
  (String.length s <= n)%nat → PyStr.drop_chars n s = EmptyString.
Proof.
  revert s; induction n as [|n IH]; intros [|c s] H; simpl in *;
    try reflexivity; try lia.
  apply IH; lia.
Qed.

Lemma prefix_refl (s : string) : String.prefix s s = true.
Proof.
  induction s as [|c s IH]; simpl; [reflexivity|].
  destruct (ascii_dec c c); [exact IH | congruence].
Qed.

Lemma prefix_nil (s : string) : String.prefix EmptyString s = true.
Proof. now destruct s. Qed.

Lemma contains_unfold (needle hay : string) :
  PyStr.contains needle hay =
  String.prefix needle hay
  || match hay with
     | EmptyString => false
     | String _ t => PyStr.contains needle t
     end.
Proof. destruct hay; reflexivity. Qed.

Lemma contains_app_r (p s : string) : PyStr.contains s (p +:+ s) = true.
Proof.
  induction p as [|c p IH].
  - change (EmptyString +:+ s) with s.
    rewrite contains_unfold, prefix_refl. reflexivity.
  - change (String c p +:+ s) with (String c (p +:+ s)).
    rewrite contains_unfold, IH. apply orb_true_r.
Qed.

Lemma nonempty_app_r (a b : string) :
  PyStr.nonempty b = true → PyStr.nonempty (a +:+ b) = true.
Proof. destruct a; simpl; auto. Qed.

Lemma nonempty_false (s : string) : PyStr.nonempty s = false → s = EmptyString.
Proof. destruct s; simpl; [reflexivity | discriminate]. Qed.

End PyStrFacts.

(** ** Paths *)

Section PathFacts.

Lemma rfind_from_absent (s : string) (i best : Z) :
  PyStr.contains "/" s = false → PyStr.rfind_from PosixPath.sep s i best = best.
Proof.
  revert i; induction s as [|a s IH]; intros i H; [reflexivity|].
  rewrite contains_unfold in H. apply orb_false_elim in H as [Hhead Htail].
  cbn [PyStr.rfind_from]. cbn [String.prefix] in Hhead. revert Hhead.
  destruct (ascii_dec "/" a) as [<-|Hne]; [now rewrite prefix_nil|]. intros _.
  assert (Ascii.eqb a PosixPath.sep = false) as ->
    by (apply Ascii.eqb_neq; intros ->; now apply Hne).
  now apply IH.
Qed.

Lemma slice_0_0 (s : string) : PyStr.slice 0 0 s = EmptyString.
Proof.
  unfold PyStr.slice, PyStr.clamp_index, PyStr.len. change (0 <? 0) with false. cbv iota.
  replace (Z.max 0 (Z.min 0 (Z.of_nat (String.length s)))) with 0 by lia.
  reflexivity.
Qed.

(** A path without separator has the empty directory name. *)
Lemma dirname_bare (p : string) :
  PyStr.contains "/" p = false → PosixPath.dirname p = EmptyString.
Proof.
  intros H. unfold PosixPath.dirname, PyStr.rfind.
  rewrite rfind_from_absent by exact H.
  change (-1 + 1) with 0. rewrite slice_0_0. reflexivity.
Qed.

End PathFacts.

(** ** The monad *)

Ltac unfold_M :=
  unfold mbind, M_bind, mret, M_ret, lift, raise, print, try_except, try_finally.

(** ** Extraction *)

Section Extraction.

Lemma for_fields_skip (pre rest : list string) body orelse (w : world) :
  Forall (λ k, ∀ w0, body k w0 = (Ret None, w0)) pre →
  for_fields (pre ++ rest) body orelse w = for_fields rest body orelse w.
Proof.
  induction 1 as [|k pre Hk _ IH]; [reflexivity|].
  simpl. unfold_M. rewrite Hk. exact IH.
Qed.

Lemma for_fields_hit (pre post : list string) k body orelse (w w' : world) v :
  Forall (λ k, ∀ w0, body k w0 = (Ret None, w0)) pre →
  body k w = (Ret (Some v), w') →
  for_fields (pre ++ k :: post) body orelse w = (Ret v, w').
Proof.
  intros Hpre Hk. rewrite for_fields_skip by exact Hpre.
  simpl. unfold_M. now rewrite Hk.
Qed.

Lemma for_fields_miss (fields : list string) body orelse (w : world) :
  Forall (λ k, ∀ w0, body k w0 = (Ret None, w0)) fields →
  for_fields fields body orelse w = orelse w.
Proof.
  intros H. rewrite <- (app_nil_r fields). now rewrite for_fields_skip.
Qed.

(** What one test of the loop does on a mapping. *)
Lemma check_field_dict (d : gmap string pyval) (where_ k : string) (w : world) :
  check_field (PDict d) where_ k w =
  match d !! k with
  | Some v =>
      if truthy v
      then (Ret (Some v),
            (print [Lit where_; Lit k; Lit PyStr.dquote; Lit ": "; Val v] w).2)
      else (Ret None, w)
  | None => (Ret None, w)
  end.
Proof.
  unfold check_field. unfold_M. simpl.
  destruct (d !! k) as [v|]; [|reflexivity].
  destruct (truthy v); reflexivity.
Qed.

Lemma check_field_dict_skip (d : gmap string pyval) (where_ k : string) :
  present_truthy d k = false → ∀ w, check_field (PDict d) where_ k w = (Ret None, w).
Proof.
  unfold present_truthy. intros H w. rewrite check_field_dict.
  destruct (d !! k) as [v|]; [now rewrite H | reflexivity].
Qed.

(** A test of the loop returns only truthy values, whatever the
    container. *)
Lemma check_field_truthy (c : pyval) (where_ k : string) (w w' : world) v :
  check_field c where_ k w = (Ret (Some v), w') → truthy v = true.
Proof.
  unfold check_field. unfold_M.
  destruct (py_contains k c) as [[|]|e]; try discriminate.
  destruct (py_getitem c k) as [u|e] eqn:Hget; try discriminate.
  destruct (truthy u) eqn:Hu; [|discriminate].
  intros [= <- _]. exact Hu.
Qed.

Lemma for_fields_ret (P : pyval → Prop) fields body orelse (w w' : world) v :
  (∀ k w0 u w1, body k w0 = (Ret (Some u), w1) → P u) →
  (∀ w0 u w1, orelse w0 = (Ret u, w1) → P u) →
  for_fields fields body orelse w = (Ret v, w') → P v.
Proof.
  intros Hbody Helse. revert w.
  induction fields as [|k fields IH]; intros w; simpl; [apply Helse|].
  unfold_M. destruct (body k w) as [[[u|]|e] w1] eqn:Hk.
  - intros [= <- _]. eapply Hbody, Hk.
  - apply IH.
  - discriminate.
Qed.

(** Extraction returns a truthy value or the empty string. *)
Lemma get_poster_url_from_data_value (data : gmap string pyval) (w w' : world) v :
  get_poster_url_from_data data w = (Ret v, w') → truthy v = true ∨ v = PStr "".
Proof.
  unfold get_poster_url_from_data. generalize possible_fields. intros fields H.
  pose (P := λ u : pyval, truthy u = true ∨ u = PStr "").
  refine (for_fields_ret P _ _ _ _ _ _ _ _ H).
  - intros k w0 u w1 Hk. left. eapply check_field_truthy, Hk.
  - intros w0 u w1. unfold_M. cbn [py_contains].
    destruct (data !! "data") as [nested|] eqn:Hd.
    + intros H'. refine (for_fields_ret P _ _ _ _ _ _ _ _ H').
      * intros k w2 u' w3. cbn [py_getitem]. rewrite Hd.
        intros Hk. left. eapply check_field_truthy, Hk.
      * intros w2 u' w3 [= <- _]. now right.
    + intros [= <- _]. now right.
Qed.

Lemma get_poster_url_from_data_top (data : gmap string pyval) (w : world)
    (pre post : list string) (k : string) v :
  possible_fields = (pre ++ k :: post)%list →
  Forall (λ k', present_truthy data k' = false) pre →
  data !! k = Some v → truthy v = true →
  (get_poster_url_from_data data w).1 = Ret v.
Proof.
  intros Hsplit Hpre Hk Hv. unfold get_poster_url_from_data. rewrite Hsplit.
  erewrite for_fields_hit; [reflexivity | |].
  - eapply Forall_impl; [exact Hpre|]. intros k' Hk'. now apply check_field_dict_skip.
  - rewrite check_field_dict, Hk, Hv. reflexivity.
Qed.

Lemma get_poster_url_from_data_no_top (data : gmap string pyval) (w : world) :
  Forall (λ k', present_truthy data k' = false) possible_fields →
  get_poster_url_from_data data w =
  match data !! "data" with
  | Some nested =>
      for_fields possible_fields
        (check_field nested ("Found poster URL in nested field " +:+ PyStr.dquote +:+ "data."))
        (print [Lit "No poster URL found in PT-Gen response"];; mret (PStr "")) w
  | None => (Ret (PStr ""), (print [Lit "No poster URL found in PT-Gen response"] w).2)
  end.
Proof.
  intros Htop. unfold get_poster_url_from_data.
  rewrite for_fields_miss.
  2:{ eapply Forall_impl; [exact Htop|]. intros k' Hk'. now apply check_field_dict_skip. }
  unfold_M. cbn [py_contains py_getitem].
  destruct (data !! "data") as [nested|] eqn:Hd; reflexivity.
Qed.

End Extraction.

(** X17.  Key priority.  For every response mapping: (1) the value of the
    earliest candidate key present at top level with a truthy value is
    returned; (2) when no top-level candidate matches and the mapping holds
    a mapping under [data], the value of the earliest candidate key present
    there with a truthy value is returned; (3) when no top-level candidate
    matches and [data] is absent, or holds a mapping in which none matches
    either, the empty string is returned. *)
Theorem get_poster_url_from_data_priority (data : gmap string pyval) (w : world) :
  (∀ pre k post v,
     possible_fields = (pre ++ k :: post)%list →
     Forall (λ k', present_truthy data k' = false) pre →
     data !! k = Some v → truthy v = true →
     (get_poster_url_from_data data w).1 = Ret v)
  ∧ (∀ nested pre k post v,
       Forall (λ k', present_truthy data k' = false) possible_fields →
       data !! "data" = Some (PDict nested) →
       possible_fields = (pre ++ k :: post)%list →
       Forall (λ k', present_truthy nested k' = false) pre →
       nested !! k = Some v → truthy v = true →
       (get_poster_url_from_data data w).1 = Ret v)
  ∧ (Forall (λ k', present_truthy data k' = false) possible_fields →
     (data !! "data" = None
      ∨ ∃ nested, data !! "data" = Some (PDict nested)
                  ∧ Forall (λ k', present_truthy nested k' = false) possible_fields) →
     (get_poster_url_from_data data w).1 = Ret (PStr "")).
Proof.
  split; [|split].
  - intros pre k post v. apply get_poster_url_from_data_top.
  - intros nested pre k post v Htop Hd Hsplit Hpre Hk Hv.
    rewrite get_poster_url_from_data_no_top, Hd by exact Htop.
    rewrite Hsplit. erewrite for_fields_hit; [reflexivity | |].
    + eapply Forall_impl; [exact Hpre|]. intros k' Hk'. now apply check_field_dict_skip.
    + rewrite check_field_dict, Hk, Hv. reflexivity.
  - intros Htop Hdata. rewrite get_poster_url_from_data_no_top by exact Htop.
    destruct Hdata as [-> | (nested & -> & Hnested)]; [reflexivity|].
    rewrite for_fields_miss; [reflexivity|].
    eapply Forall_impl; [exact Hnested|]. intros k' Hk'. now apply check_field_dict_skip.
Qed.

Lemma get_poster_url_from_data_priority_witness :
  (get_poster_url_from_data
     {[ "img" := PStr "a"; "poster" := PStr ""; "cover" := PStr "c" ]} Sample.w0).1
  = Ret (PStr "a")
  ∧ (get_poster_url_from_data Sample.nested_cover Sample.w0).1 = Ret (PStr "http://a/b.jpg")
  ∧ (get_poster_url_from_data {[ "data" := PDict ∅; "title" := PStr "t" ]} Sample.w0).1
    = Ret (PStr "").
Proof.
  split; [|split].
  - apply (proj1 (get_poster_url_from_data_priority _ Sample.w0)
             ["poster"] "img" ["image"; "cover"; "posterUrl"] (PStr "a")).
    + reflexivity.
    + repeat constructor.
    + reflexivity.
    + reflexivity.
  - apply (proj1 (proj2 (get_poster_url_from_data_priority _ Sample.w0))
             {[ "cover" := PStr "http://a/b.jpg" ]}
             ["poster"; "img"; "image"] "cover" ["posterUrl"] (PStr "http://a/b.jpg")).
    + repeat constructor.
    + reflexivity.
    + reflexivity.
    + repeat constructor.
    + reflexivity.
    + reflexivity.
  - apply (proj2 (proj2 (get_poster_url_from_data_priority _ Sample.w0))).
    + repeat constructor.
    + right. exists ∅. split; [reflexivity | repeat constructor].
Defined.

(** When nothing matches at top level and the value under [data] is
    neither a mapping, a string nor a list, the membership test of line 36
    raises. *)
Lemma get_poster_url_from_data_nested_scalar (data : gmap string pyval) (w : world) v :
  Forall (λ k', present_truthy data k' = false) possible_fields →
  data !! "data" = Some v →
  match v with PNone | PBool _ | PInt _ | PFloat _ => True | _ => False end →
  (get_poster_url_from_data data w).1
  = Raise (MkExn TypeError ("argument of type '" +:+ type_name v +:+ "' is not iterable")).
Proof.
  intros Htop Hd Hv. rewrite get_poster_url_from_data_no_top, Hd by exact Htop.
  destruct v; try contradiction; reflexivity.
Qed.

(** C6.  On the mapping that holds [None] under [data] and nothing else,
    extraction does not return: it raises [TypeError]. *)
Theorem get_poster_url_from_data_raises_on_null_data (w : world) :
  (get_poster_url_from_data Sample.null_data w).1
  = Raise (MkExn TypeError "argument of type 'NoneType' is not iterable").
Proof.
  apply (get_poster_url_from_data_nested_scalar Sample.null_data w PNone).
  - repeat constructor.
  - reflexivity.
  - exact I.
Qed.

(** C1.  The claim fails on the mapping that holds [None] under [data] and
    nothing else: no candidate key is present with a truthy value at top
    level, there is no mapping under [data] in which one could match, and
    yet extraction does not return the empty string; it raises
    [TypeError]. *)
Theorem get_poster_url_from_data_no_match_raises (w : world) :
  Forall (λ k, present_truthy Sample.null_data k = false) possible_fields
  ∧ (∀ nested, Sample.null_data !! "data" ≠ Some (PDict nested))
  ∧ (get_poster_url_from_data Sample.null_data w).1 ≠ Ret (PStr "")
  ∧ ∃ e, exn_cls e = TypeError
         ∧ (get_poster_url_from_data Sample.null_data w).1 = Raise e.
Proof.
  assert (Htop : Forall (λ k, present_truthy Sample.null_data k = false) possible_fields)
    by repeat constructor.
  pose proof (get_poster_url_from_data_nested_scalar Sample.null_data w PNone
                Htop eq_refl I) as Hraise.
  split; [exact Htop|]. split; [intros nested; discriminate|].
  rewrite Hraise. split; [discriminate|].
  eexists. split; [|reflexivity]. reflexivity.
Qed.

(** ** Download *)

Section Download.

Variable E : env.

Lemma download_poster_except_ret (e : exn) (w : world) :
  (download_poster_except e w).1 = Ret (false, cause_message e).
Proof. destruct e as [[] m]; reflexivity. Qed.

Lemma cause_message_distinct (e1 e2 : exn) :
  cause_of (exn_cls e1) ≠ cause_of (exn_cls e2) →
  cause_message e1 ≠ cause_message e2.
Proof.
  destruct e1 as [[] m1], e2 as [[] m2]; unfold cause_message; cbn;
    intros Hc Hm; try (now apply Hc); discriminate Hm.
Qed.

Lemma download_poster_ret (url : pyval) (path : string) (w : world) :
  ∃ b m, (download_poster E url path w).1 = Ret (b, m).
Proof.
  unfold download_poster, try_except.
  destruct (download_poster_try E url path w) as [[[b m]|e] w1].
  - now exists b, m.
  - exists false, (cause_message e). apply download_poster_except_ret.
Qed.

Lemma download_poster_caught (url : pyval) (path : string) (w w1 : world) (e : exn) :
  download_poster_try E url path w = (Raise e, w1) →
  (download_poster E url path w).1 = Ret (false, cause_message e).
Proof.
  intros H. unfold download_poster, try_except. rewrite H.
  apply download_poster_except_ret.
Qed.

(** The try block up to the status test. *)
Lemma download_poster_try_get (url : pyval) (path : string) (w : world) :
  truthy url = true →
  download_poster_try E url path w =
  let w1 := (http_get E (MkRequest url headers 30 true)
               (print [Lit "Starting poster download from: "; Val url] w).2).2 in
  match requests_get E (MkRequest url headers 30 true) with
  | Raise e => (Raise e, w1)
  | Ret response =>
      if negb (status_code response =? 200) then
        (Ret (false, "Failed to download poster, status code: "
                     +:+ PyStr.of_int (status_code response)), w1)
      else
        (Os.makedirs E (PosixPath.dirname path);;
         Os.open_wb E path;;
         write_chunks E path (body_chunks response);;
         (match body_error response with
          | Some e => raise e
          | None => mret tt
          end);;
         print [Lit "Poster downloaded successfully to: "; Lit path];;
         mret (true, path)) w1
  end.
Proof.
  intros Hurl. unfold download_poster_try. rewrite Hurl. cbn [negb].
  unfold_M. unfold http_get. cbn.
  destruct (requests_get E _) as [response|e]; [|reflexivity].
  destruct (status_code response =? 200); reflexivity.
Qed.

End Download.

(** C7.  With the empty URL the downloader answers that the URL is empty and
    leaves the world as it was: no request is recorded. *)
Theorem download_poster_empty_url (E : env) (save_path : string) (w : world) :
  download_poster E (PStr "") save_path w = (Ret (false, "Poster URL is empty"), w)
  ∧ requests_log (download_poster E (PStr "") save_path w).2 = requests_log w.
Proof. split; reflexivity. Qed.

(** C8.  When the server answers with a status other than 200, the
    downloader returns a failure whose message ends with that status in
    decimal, and the file system is left as it was. *)
Theorem download_poster_non_200 (E : env) (url : pyval) (save_path : string)
    (w : world) (resp : response) :
  truthy url = true →
  requests_get E (MkRequest url headers 30 true) = Ret resp →
  status_code resp ≠ 200 →
  ∃ m, (download_poster E url save_path w).1 = Ret (false, m)
       ∧ m = "Failed to download poster, status code: " +:+ PyStr.of_int (status_code resp)
       ∧ PyStr.contains (PyStr.of_int (status_code resp)) m = true
       ∧ fs (download_poster E url save_path w).2 = fs w.
Proof.
  intros Hurl Hget Hstatus. eexists.
  unfold download_poster, try_except.
  rewrite download_poster_try_get by exact Hurl. rewrite Hget.
  apply Z.eqb_neq in Hstatus. rewrite Hstatus. cbn.
  repeat split. apply contains_app_r.
Qed.

Lemma download_poster_non_200_witness :
  ∃ m, (download_poster (Sample.env_status 404) (PStr "http://a/b.jpg") "/tmp/p.jpg"
          Sample.w0).1 = Ret (false, m)
       ∧ m = "Failed to download poster, status code: 404"
       ∧ PyStr.contains "404" m = true
       ∧ fs (download_poster (Sample.env_status 404) (PStr "http://a/b.jpg") "/tmp/p.jpg"
               Sample.w0).2 = fs Sample.w0.
Proof.
  apply (download_poster_non_200 (Sample.env_status 404) (PStr "http://a/b.jpg")
           "/tmp/p.jpg" Sample.w0 (MkResponse 404 [] None)).
  - reflexivity.
  - reflexivity.
  - discriminate.
Defined.

(** C10.  A destination without separator has the empty directory name, and
    then a non-empty URL and a 200 answer still end in the failure of the
    local I/O handler: [os.makedirs] is called on the empty name and raises.
    Nothing is written. *)
Theorem download_poster_bare_filename (E : env) (url : pyval) (save_path : string)
    (w : world) (resp : response) :
  PyStr.contains "/" save_path = false →
  truthy url = true →
  requests_get E (MkRequest url headers 30 true) = Ret resp →
  status_code resp = 200 →
  PosixPath.dirname save_path = ""
  ∧ Os.makedirs E (PosixPath.dirname save_path) w
    = (Raise (MkExn IOError "[Errno 2] No such file or directory: ''"), w)
  ∧ (download_poster E url save_path w).1
    = Ret (false, "Failed to save poster file: [Errno 2] No such file or directory: ''")
  ∧ fs (download_poster E url save_path w).2 = fs w.
Proof.
  intros Hbare Hurl Hget Hstatus. apply dirname_bare in Hbare as Hdir.
  split; [exact Hdir|]. rewrite Hdir. split; [reflexivity|].
  unfold download_poster, try_except.
  rewrite download_poster_try_get by exact Hurl. rewrite Hget, Hstatus, Hdir.
  cbn. split; reflexivity.
Qed.

Lemma download_poster_bare_filename_witness :
  PosixPath.dirname "poster_42.jpg" = ""
  ∧ Os.makedirs (Sample.env_ok "u") (PosixPath.dirname "poster_42.jpg") Sample.w0
    = (Raise (MkExn IOError "[Errno 2] No such file or directory: ''"), Sample.w0)
  ∧ (download_poster (Sample.env_ok "u") (PStr "http://a/b.jpg") "poster_42.jpg" Sample.w0).1
    = Ret (false, "Failed to save poster file: [Errno 2] No such file or directory: ''")
  ∧ fs (download_poster (Sample.env_ok "u") (PStr "http://a/b.jpg") "poster_42.jpg"
          Sample.w0).2 = fs Sample.w0.
Proof.
  apply (download_poster_bare_filename (Sample.env_ok "u") (PStr "http://a/b.jpg")
           "poster_42.jpg" Sample.w0 Sample.ok_response).
  - reflexivity.
  - reflexivity.
  - reflexivity.
  - reflexivity.
Defined.

(** C4.  The downloader always returns a pair.  Whatever exception the try
    block raises is turned into a failure whose message is the one of its
    cause: timeout, request error, local I/O error, or the generic message
    for anything else; messages of different causes are different. *)
Theorem download_poster_never_raises (E : env) (url : pyval) (save_path : string)
    (w : world) :
  (∃ b m, (download_poster E url save_path w).1 = Ret (b, m))
  ∧ (∀ e w1, download_poster_try E url save_path w = (Raise e, w1) →
             (download_poster E url save_path w).1 = Ret (false, cause_message e))
  ∧ (∀ e1 e2, cause_of (exn_cls e1) ≠ cause_of (exn_cls e2) →
              cause_message e1 ≠ cause_message e2).
Proof.
  split; [|split].
  - apply download_poster_ret.
  - intros e w1. apply download_poster_caught.
  - apply cause_message_distinct.
Qed.

Lemma download_poster_never_raises_witness :
  (download_poster (Sample.env_get_raises (MkExn Timeout "read timed out"))
     (PStr "http://a/b.jpg") "/tmp/p.jpg" Sample.w0).1
  = Ret (false, "Poster download timeout (30s)")
  ∧ (download_poster (Sample.env_get_raises (MkExn RequestException "connection refused"))
       (PStr "http://a/b.jpg") "/tmp/p.jpg" Sample.w0).1
    = Ret (false, "Poster download request error: connection refused")
  ∧ (download_poster (Sample.env_get_raises (MkExn KeyError "'k'"))
       (PStr "http://a/b.jpg") "/tmp/p.jpg" Sample.w0).1
    = Ret (false, "Unexpected error: 'k'")
  ∧ cause_message (MkExn Timeout "t") ≠ cause_message (MkExn IOError "t").
Proof.
  split; [|split; [|split]].
  - eapply (proj1 (proj2 (download_poster_never_raises
                            (Sample.env_get_raises (MkExn Timeout "read timed out"))
                            (PStr "http://a/b.jpg") "/tmp/p.jpg" Sample.w0))
              (MkExn Timeout "read timed out")).
    reflexivity.
  - eapply (proj1 (proj2 (download_poster_never_raises
                            (Sample.env_get_raises (MkExn RequestException "connection refused"))
                            (PStr "http://a/b.jpg") "/tmp/p.jpg" Sample.w0))
              (MkExn RequestException "connection refused")).
    reflexivity.
  - eapply (proj1 (proj2 (download_poster_never_raises
                            (Sample.env_get_raises (MkExn KeyError "'k'"))
                            (PStr "http://a/b.jpg") "/tmp/p.jpg" Sample.w0))
              (MkExn KeyError "'k'")).
    reflexivity.
  - apply (proj2 (proj2 (download_poster_never_raises
                           (Sample.env_ok "u") PNone "" Sample.w0))).
    discriminate.
Defined.

(** ** Markup *)

Section Markup.

Lemma prefix_app (a b : string) : String.prefix a (a +:+ b) = true.
Proof.
  induction a as [|c a IH]; [apply prefix_nil|].
  change (String c a +:+ b) with (String c (a +:+ b)). simpl.
  destruct (ascii_dec c c); [exact IH | congruence].
Qed.

Lemma prefix_split (a s : string) :
  String.prefix a s = true → s = a +:+ PyStr.drop_chars (String.length a) s.
Proof.
  revert s; induction a as [|c a IH]; intros s H; [reflexivity|].
  destruct s as [|c' s]; [discriminate|]. simpl in H.
  destruct (ascii_dec c c') as [<-|]; [|discriminate].
  change (String c s = String c (a +:+ PyStr.drop_chars (String.length a) s)).
  f_equal. now apply IH.
Qed.


Lemma endswith_app (a q : string) : PyStr.endswith q (a +:+ q) = true.
Proof.
  unfold PyStr.endswith. rewrite length_app.
  replace (String.length a + String.length q - String.length q)%nat
    with (String.length a) by lia.
  rewrite drop_app_length, String.eqb_refl.
  rewrite andb_true_r. apply Nat.leb_le. lia.
Qed.

Lemma endswith_split (q s : string) :
  PyStr.endswith q s = true →
  s = PyStr.take_chars (String.length s - String.length q) s +:+ q.
Proof.
  unfold PyStr.endswith. intros H. apply andb_prop in H as [_ H].
  apply String.eqb_eq in H.
  rewrite <- (take_drop (String.length s - String.length q) s) at 1.
  now rewrite H.
Qed.

Lemma slice_between (mid : string) :
  PyStr.slice 5 (-6) ("[img]" +:+ mid +:+ "[/img]") = mid.
Proof.
  unfold PyStr.slice, PyStr.clamp_index, PyStr.len.
  rewrite !length_app. cbn [String.length].
  change (5 <? 0) with false. change (-6 <? 0) with true. cbv iota.
  replace (Z.max 0 (Z.min 5 (Z.of_nat (5 + (String.length mid + 6))))) with 5 by lia.
  replace (Z.max 0 (Z.min (-6 + Z.of_nat (5 + (String.length mid + 6)))
                       (Z.of_nat (5 + (String.length mid + 6)))) - 5)
    with (Z.of_nat (String.length mid)) by lia.
  rewrite Nat2Z.id. change (Z.to_nat 5) with 5%nat.
  change (PyStr.drop_chars 5 ("[img]" +:+ mid +:+ "[/img]")) with (mid +:+ "[/img]").
  apply take_app_length.
Qed.

Lemma unwrap_bbcode_wrapped (mid : string) :
  unwrap_bbcode ("[img]" +:+ mid +:+ "[/img]") = mid.
Proof.
  unfold unwrap_bbcode, PyStr.startswith.
  rewrite prefix_app.
  change ("[img]" +:+ mid +:+ "[/img]") with (String "[" ("img]" +:+ mid) +:+ "[/img]") at 1.
  change (String "[" ("img]" +:+ mid) +:+ "[/img]") with ("[img]" +:+ mid +:+ "[/img]").
  assert (He : PyStr.endswith "[/img]" ("[img]" +:+ mid +:+ "[/img]") = true).
  { change ("[img]" +:+ mid +:+ "[/img]") with ("[img]" +:+ (mid +:+ "[/img]")).
    replace ("[img]" +:+ (mid +:+ "[/img]")) with (("[img]" +:+ mid) +:+ "[/img]").
    - apply endswith_app.
    - reflexivity. }
  rewrite He. cbn [andb]. apply slice_between.
Qed.

(** A string that both starts with the opening tag and ends with the
    closing tag is the two tags around something: the tags cannot
    overlap. *)
Lemma bracketed_split (s : string) :
  bracketed s = true → ∃ mid, s = "[img]" +:+ mid +:+ "[/img]".
Proof.
  unfold bracketed, PyStr.startswith. intros H.
  apply andb_prop in H as [Hs He].
  apply prefix_split in Hs. cbn [String.length] in Hs.
  set (t := PyStr.drop_chars 5 s) in Hs. clearbody t. subst s.
  destruct (le_lt_dec 6 (String.length t)) as [Hlen|Hlen].
  - apply endswith_split in He. rewrite length_app in He. cbn [String.length] in He.
    exists (PyStr.take_chars (String.length t - 6) t).
    assert (Ht : t = PyStr.take_chars (String.length t - 6) t +:+ "[/img]").
    { replace (5 + String.length t - 6)%nat with (S (S (S (S (S (String.length t - 6))))))
        in He by lia.
      cbn in He. now injection He. }
    now rewrite <- Ht.
  - exfalso.
    destruct t as [|c1 [|c2 [|c3 [|c4 [|c5 [|c6 t]]]]]]; cbn in Hlen; try lia;
      cbn in He; discriminate He.
Qed.

End Markup.

(** ** The orchestrator *)

Section Orchestrator.

Variable E : env.

Lemma resolve_temp_file_path_world (url : pyval) (temp_dir : option string)
    (w w1 : world) (r : result string) :
  resolve_temp_file_path E url temp_dir w = (r, w1) → w1 = w.
Proof.
  unfold resolve_temp_file_path. unfold_M.
  destruct temp_dir as [d|]; [now intros [= _ <-]|].
  destruct (gettempdir E); now intros [= _ <-].
Qed.

Lemma join_nonempty (a b : string) :
  PyStr.nonempty b = true → PyStr.nonempty (PosixPath.join a b) = true.
Proof.
  intros Hb. unfold PosixPath.join.
  destruct (PyStr.startswith "/" b); [exact Hb|].
  destruct (negb (PyStr.nonempty a) || PyStr.endswith "/" a).
  - now apply nonempty_app_r.
  - now apply nonempty_app_r, nonempty_app_r.
Qed.

Lemma resolve_temp_file_path_nonempty (url : pyval) (temp_dir : option string)
    (w w1 : world) (p : string) :
  resolve_temp_file_path E url temp_dir w = (Ret p, w1) → PyStr.nonempty p = true.
Proof.
  unfold resolve_temp_file_path. unfold_M.
  destruct temp_dir as [d|].
  - intros [= <- _]. now apply join_nonempty.
  - destruct (gettempdir E); [|discriminate].
    intros [= <- _]. now apply join_nonempty.
Qed.

(** The finally block returns normally. *)
Lemma process_poster_finally_ret (temp_file_path : option string) (w : world) :
  (process_poster_finally E temp_file_path w).1 = Ret tt.
Proof.
  destruct temp_file_path as [p|]; [|reflexivity].
  unfold process_poster_finally.
  destruct (PyStr.nonempty p && Os.exists_ p w); [|reflexivity].
  unfold_M. destruct (Os.remove E p w) as [[[]|e] w']; reflexivity.
Qed.

Lemma try_finally_result {A} (body : M A) (temp_file_path : option string) (w : world) :
  (try_finally body (process_poster_finally E temp_file_path) w).1 = (body w).1.
Proof.
  unfold try_finally. destruct (body w) as [r w'].
  pose proof (process_poster_finally_ret temp_file_path w') as H.
  destruct (process_poster_finally E temp_file_path w') as [[[]|e] w'']; simpl in *;
    [reflexivity | discriminate].
Qed.

(** What the finally block leaves behind. *)
Lemma process_poster_finally_world (p : string) (w : world) :
  PyStr.nonempty p = true →
  Os.exists_ p (process_poster_finally E (Some p) w).2 = false
  ∨ ∃ e, Os.remove E p w = (Raise e, w)
         ∧ (process_poster_finally E (Some p) w).2 = logged (cleanup_warning e) w.
Proof.
  intros Hp. unfold process_poster_finally. rewrite Hp. cbn [andb].
  destruct (Os.exists_ p w) eqn:Hex; [|now left].
  unfold_M. unfold Os.remove.
  destruct (remove_fault E p w) as [e|].
  - right. exists e. split; reflexivity.
  - unfold Os.exists_ in Hex. destruct (fs w !! p) as [[c|]|] eqn:Hfs.
    + left. unfold Os.exists_. cbn. now rewrite lookup_delete_eq.
    + right. eexists. split; reflexivity.
    + discriminate.
Qed.

(** The result of the orchestrator is the one of its try and except
    blocks. *)
Lemma process_poster_result (url : pyval) (api_url api_token : string)
    (temp_dir : option string) (w : world) :
  (process_poster E url api_url api_token temp_dir w).1 =
  match resolve_temp_file_path E url temp_dir w with
  | (Raise e, w1) => (process_poster_except e w1).1
  | (Ret p, w1) =>
      (try_except (process_poster_try E url api_url api_token p) process_poster_except w1).1
  end.
Proof.
  unfold process_poster.
  destruct (resolve_temp_file_path E url temp_dir w) as [[p|e] w1];
    apply try_finally_result.
Qed.

(** The try block, once the downloader has answered. *)
Lemma process_poster_try_download (url : pyval) (api_url api_token p : string) (w : world) :
  process_poster_try E url api_url api_token p w =
  match download_poster E url p (at_download url p w) with
  | (Raise e, w2) => (Raise e, w2)
  | (Ret (false, download_result), w2) =>
      (Ret (false, "Failed to download poster: " +:+ download_result), w2)
  | (Ret (true, _), w2) =>
      match upload_picture E api_url api_token p (at_upload w2) with
      | (Raise e, w3) => (Raise e, w3)
      | (Ret (false, upload_result), w3) =>
          (Ret (false, "Failed to upload poster: " +:+ upload_result), w3)
      | (Ret (true, upload_result), w3) =>
          (Ret (true, unwrap_bbcode upload_result),
           logged [Lit "Poster uploaded successfully: "; Lit upload_result] w3)
      end
  end.
Proof.
  unfold process_poster_try. unfold_M. cbn -[download_poster].
  change (MkWorld (fs w)
            (((stdout w ++ [[Lit "=== Starting poster processing ==="]])
              ++ [[Lit "Poster URL: "; Val url]])
             ++ [[Lit "Temp file path: "; Lit p]]) (requests_log w))
    with (at_download url p w).
  destruct (download_poster E url p (at_download url p w)) as [[[[|] d]|e] w2];
    try reflexivity.
  cbn. change (MkWorld (fs w2)
                 (stdout w2 ++ [[Lit "Uploading poster to image hosting service..."]])
                 (requests_log w2)) with (at_upload w2).
  destruct (upload_picture E api_url api_token p (at_upload w2)) as [[[[|] u]|e] w3];
    reflexivity.
Qed.

(** A result of the orchestrator is a success or carries the name of the
    stage that failed. *)
Lemma process_poster_shape (url : pyval) (api_url api_token : string)
    (temp_dir : option string) (w : world) :
  ∃ b m, (process_poster E url api_url api_token temp_dir w).1 = Ret (b, m)
         ∧ (b = true
            ∨ (∃ r, m = "Failed to download poster: " +:+ r)
            ∨ (∃ r, m = "Failed to upload poster: " +:+ r)
            ∨ (∃ r, m = "Error during poster processing: " +:+ r)).
Proof.
  rewrite process_poster_result.
  destruct (resolve_temp_file_path E url temp_dir w) as [[p|e] w1].
  - unfold try_except. rewrite process_poster_try_download.
    destruct (download_poster E url p (at_download url p w1)) as [[[[|] d]|e] w2].
    + destruct (upload_picture E api_url api_token p (at_upload w2)) as [[[[|] u]|e] w3].
      * eexists _, _. split; [reflexivity | now left].
      * eexists _, _. split; [reflexivity | right; right; left; now eexists].
      * eexists _, _. split; [reflexivity | right; right; right; now eexists].
    + eexists _, _. split; [reflexivity | right; left; now eexists].
    + eexists _, _. split; [reflexivity | right; right; right; now eexists].
  - eexists _, _. split; [reflexivity | right; right; right; now eexists].
Qed.

End Orchestrator.

(** ** The cleanup oracle does not reach the try block *)

Section RemoveFault.

Variable E : env.
Variable f : string → world → option exn.

Lemma write_chunks_with_remove_fault (path : string) (chunks : list (list byte)) :
  write_chunks (with_remove_fault f E) path chunks = write_chunks E path chunks.
Proof.
  induction chunks as [|chunk chunks IH]; [reflexivity|].
  cbn [write_chunks]. rewrite IH. reflexivity.
Qed.

Lemma download_poster_with_remove_fault (url : pyval) (path : string) (w : world) :
  download_poster (with_remove_fault f E) url path w = download_poster E url path w.
Proof.
  unfold download_poster, try_except.
  enough (download_poster_try (with_remove_fault f E) url path w
          = download_poster_try E url path w) as -> by reflexivity.
  destruct (truthy url) eqn:Hurl.
  - rewrite !download_poster_try_get by exact Hurl.
    change (requests_get (with_remove_fault f E)) with (requests_get E).
    destruct (requests_get E _) as [response|e]; [|reflexivity].
    destruct (negb (status_code response =? 200)); [reflexivity|].
    rewrite write_chunks_with_remove_fault. reflexivity.
  - unfold download_poster_try. rewrite Hurl. reflexivity.
Qed.

Lemma process_poster_try_with_remove_fault (url : pyval) (api_url api_token p : string)
    (w : world) :
  process_poster_try (with_remove_fault f E) url api_url api_token p w
  = process_poster_try E url api_url api_token p w.
Proof.
  rewrite !process_poster_try_download, download_poster_with_remove_fault.
  reflexivity.
Qed.

End RemoveFault.

(** C3.  [unwrap_bbcode] strips the two tags from a string wrapped in them,
    a string passing both tests of line 169 is wrapped in them, any other
    string is left unchanged; and when the download and the upload succeed,
    the orchestrator returns the unwrapped upload result. *)
Theorem process_poster_unwraps (E : env) (url : pyval) (api_url api_token : string)
    (temp_dir : option string) (w : world) :
  (∀ mid, unwrap_bbcode ("[img]" +:+ mid +:+ "[/img]") = mid)
  ∧ (∀ s, bracketed s = true → s = "[img]" +:+ unwrap_bbcode s +:+ "[/img]")
  ∧ (∀ s, bracketed s = false → unwrap_bbcode s = s)
  ∧ (∀ p w1 d w2 s w3,
       resolve_temp_file_path E url temp_dir w = (Ret p, w1) →
       download_poster E url p (at_download url p w1) = (Ret (true, d), w2) →
       upload_picture E api_url api_token p (at_upload w2) = (Ret (true, s), w3) →
       (process_poster E url api_url api_token temp_dir w).1 = Ret (true, unwrap_bbcode s))
  ∧ unwrap_bbcode "[img]https://host/x.png[/img]" = "https://host/x.png".
Proof.
  split; [|split; [|split; [|split]]].
  - apply unwrap_bbcode_wrapped.
  - intros s Hs. destruct (bracketed_split s Hs) as [mid ->].
    now rewrite unwrap_bbcode_wrapped.
  - intros s Hs. unfold unwrap_bbcode. fold (bracketed s). now rewrite Hs.
  - intros p w1 d w2 s w3 Hres Hdown Hup.
    rewrite process_poster_result, Hres. unfold try_except.
    rewrite process_poster_try_download, Hdown, Hup. reflexivity.
  - reflexivity.
Qed.

Lemma process_poster_unwraps_witness :
  (process_poster (Sample.env_ok "[img]https://host/x.png[/img]") (PStr "http://a/b.jpg")
     "api" "token" None Sample.w0).1 = Ret (true, "https://host/x.png")
  ∧ (process_poster (Sample.env_ok "https://host/x.png") (PStr "http://a/b.jpg")
       "api" "token" (Some "/var/tmp/") Sample.w0).1 = Ret (true, "https://host/x.png")
  ∧ "[img][/img]" = "[img]" +:+ unwrap_bbcode "[img][/img]" +:+ "[/img]"
  ∧ unwrap_bbcode "[img]x" = "[img]x".
Proof.
  split; [|split; [|split]].
  - eapply (proj1 (proj2 (proj2 (proj2
             (process_poster_unwraps (Sample.env_ok "[img]https://host/x.png[/img]")
                (PStr "http://a/b.jpg") "api" "token" None Sample.w0))))
             "/tmp/poster_42.jpg" Sample.w0 "/tmp/poster_42.jpg" _
             "[img]https://host/x.png[/img]" _).
    + reflexivity.
    + vm_compute. reflexivity.
    + reflexivity.
  - eapply (proj1 (proj2 (proj2 (proj2
             (process_poster_unwraps (Sample.env_ok "https://host/x.png")
                (PStr "http://a/b.jpg") "api" "token" (Some "/var/tmp/") Sample.w0))))
             "/var/tmp/poster_42.jpg" Sample.w0 "/var/tmp/poster_42.jpg" _
             "https://host/x.png" _).
    + reflexivity.
    + vm_compute. reflexivity.
    + reflexivity.
  - apply (proj1 (proj2 (process_poster_unwraps (Sample.env_ok "u") PNone "" "" None
                           Sample.w0))). reflexivity.
  - apply (proj1 (proj2 (proj2 (process_poster_unwraps (Sample.env_ok "u") PNone "" "" None
                                  Sample.w0)))). reflexivity.
Defined.

(** C2, as stated, fails: when [os.remove] raises (here: permission
    denied), the run still succeeds and the temporary file is left on the
    file system. *)
Lemma process_poster_leaves_locked_file :
  resolve_temp_file_path Sample.env_locked (PStr "http://a/b.jpg") None Sample.w0
  = (Ret "/tmp/poster_42.jpg", Sample.w0)
  ∧ (process_poster Sample.env_locked (PStr "http://a/b.jpg") "api" "token" None
       Sample.w0).1 = Ret (true, "http://cdn/x.jpg")
  ∧ Os.exists_ "/tmp/poster_42.jpg"
      (process_poster Sample.env_locked (PStr "http://a/b.jpg") "api" "token" None
         Sample.w0).2 = true.
Proof. vm_compute. repeat split. Qed.

(** C2, amended.  After every run in which the temporary path was assigned,
    nothing exists at that path, unless [os.remove] raised during cleanup:
    then the run ends by printing the warning and the file system is the
    one the cleanup found. *)
Theorem process_poster_cleanup (E : env) (url : pyval) (api_url api_token : string)
    (temp_dir : option string) (w w1 : world) (p : string) :
  resolve_temp_file_path E url temp_dir w = (Ret p, w1) →
  Os.exists_ p (process_poster E url api_url api_token temp_dir w).2 = false
  ∨ ∃ e w2, Os.remove E p w2 = (Raise e, w2)
            ∧ (process_poster E url api_url api_token temp_dir w).2
              = logged (cleanup_warning e) w2.
Proof.
  intros Hres. pose proof (resolve_temp_file_path_nonempty E _ _ _ _ _ Hres) as Hp.
  unfold process_poster. rewrite Hres. unfold try_finally.
  destruct (try_except _ _ w1) as [r w2].
  pose proof (process_poster_finally_ret E (Some p) w2) as Hret.
  pose proof (process_poster_finally_world E p w2 Hp) as Hworld.
  destruct (process_poster_finally E (Some p) w2) as [[[]|e] w3]; simpl in *;
    [|discriminate].
  destruct Hworld as [Hgone | (e & Hrm & Hw)]; [now left|].
  right. now exists e, w2.
Qed.

Lemma process_poster_cleanup_witness :
  Os.exists_ "/tmp/poster_42.jpg"
    (process_poster (Sample.env_ok "[img]http://cdn/x.jpg[/img]") (PStr "http://a/b.jpg")
       "api" "token" None Sample.w0).2 = false
  ∨ ∃ e w2,
      Os.remove (Sample.env_ok "[img]http://cdn/x.jpg[/img]") "/tmp/poster_42.jpg" w2
      = (Raise e, w2)
      ∧ (process_poster (Sample.env_ok "[img]http://cdn/x.jpg[/img]") (PStr "http://a/b.jpg")
           "api" "token" None Sample.w0).2 = logged (cleanup_warning e) w2.
Proof.
  apply (process_poster_cleanup (Sample.env_ok "[img]http://cdn/x.jpg[/img]")
           (PStr "http://a/b.jpg") "api" "token" None Sample.w0 Sample.w0
           "/tmp/poster_42.jpg").
  reflexivity.
Defined.

(** C5.  The orchestrator always returns a pair; its result does not depend
    on how [os.remove] fails; and when [os.remove] raises on an existing
    temporary file, the finally block only prints the warning. *)
Theorem process_poster_never_raises (E : env) (url : pyval) (api_url api_token : string)
    (temp_dir : option string) (w : world) :
  (∃ b m, (process_poster E url api_url api_token temp_dir w).1 = Ret (b, m))
  ∧ (∀ f, (process_poster (with_remove_fault f E) url api_url api_token temp_dir w).1
          = (process_poster E url api_url api_token temp_dir w).1)
  ∧ (∀ p e w2, PyStr.nonempty p = true → Os.exists_ p w2 = true →
               Os.remove E p w2 = (Raise e, w2) →
               process_poster_finally E (Some p) w2
               = (Ret tt, logged (cleanup_warning e) w2)).
Proof.
  split; [|split].
  - destruct (process_poster_shape E url api_url api_token temp_dir w) as (b & m & H & _).
    now exists b, m.
  - intros f. rewrite !process_poster_result.
    change (resolve_temp_file_path (with_remove_fault f E) url temp_dir w)
      with (resolve_temp_file_path E url temp_dir w).
    destruct (resolve_temp_file_path E url temp_dir w) as [[p|e] w1]; [|reflexivity].
    unfold try_except. now rewrite process_poster_try_with_remove_fault.
  - intros p e w2 Hp Hex Hrm. unfold process_poster_finally.
    rewrite Hp, Hex. cbn [andb]. unfold try_except at 1. unfold mbind, M_bind.
    now rewrite Hrm.
Qed.

Lemma process_poster_never_raises_witness :
  (process_poster Sample.env_locked (PStr "http://a/b.jpg") "api" "token" None Sample.w0).1
  = (process_poster (Sample.env_ok "[img]http://cdn/x.jpg[/img]") (PStr "http://a/b.jpg")
       "api" "token" None Sample.w0).1
  ∧ process_poster_finally Sample.env_locked (Some "/tmp/poster_42.jpg")
      (set_fs {[ "/tmp/poster_42.jpg" := File [] ]} Sample.w0)
    = (Ret tt,
       logged (cleanup_warning
                 (MkExn IOError "[Errno 13] Permission denied: '/tmp/poster_42.jpg'"))
         (set_fs {[ "/tmp/poster_42.jpg" := File [] ]} Sample.w0)).
Proof.
  split.
  - apply (proj1 (proj2 (process_poster_never_raises
                           (Sample.env_ok "[img]http://cdn/x.jpg[/img]")
                           (PStr "http://a/b.jpg") "api" "token" None Sample.w0))).
  - apply (proj2 (proj2 (process_poster_never_raises Sample.env_locked PNone "" "" None
                           Sample.w0))).
    + reflexivity.
    + reflexivity.
    + reflexivity.
Defined.

(** C9.  When extraction returns [v]: if [v] is the empty string the wrapper
    returns the fixed failure; otherwise it is the orchestrator applied to
    [v] and the same endpoint, token and directory; and the fixed failure is
    returned in no other case. *)
Theorem get_poster_from_pt_gen_response_spec (E : env) (data : gmap string pyval)
    (api_url api_token : string) (temp_dir : option string) (w w1 : world) (v : pyval) :
  get_poster_url_from_data data w = (Ret v, w1) →
  (v = PStr "" →
   get_poster_from_pt_gen_response E data api_url api_token temp_dir w
   = (Ret (false, "No poster URL found in PT-Gen response"), w1))
  ∧ (v ≠ PStr "" →
     get_poster_from_pt_gen_response E data api_url api_token temp_dir w
     = process_poster E v api_url api_token temp_dir w1)
  ∧ ((get_poster_from_pt_gen_response E data api_url api_token temp_dir w).1
     = Ret (false, "No poster URL found in PT-Gen response")
     ↔ v = PStr "").
Proof.
  intros Hget. unfold get_poster_from_pt_gen_response. unfold mbind, M_bind.
  rewrite Hget.
  destruct (get_poster_url_from_data_value _ _ _ _ Hget) as [Hv | ->].
  - rewrite Hv. cbn [negb].
    assert (Hne : v ≠ PStr "") by (intros ->; discriminate Hv).
    split; [|split].
    + intros Heq. now destruct Hne.
    + reflexivity.
    + split; [|intros Heq; now destruct Hne].
      intros Hfix. exfalso.
      destruct (process_poster_shape E v api_url api_token temp_dir w1)
        as (b & m & Hres & Hshape).
      rewrite Hres in Hfix. injection Hfix as -> ->.
      destruct Hshape as [Hb | [[r Hm] | [[r Hm] | [r Hm]]]]; discriminate.
  - cbn. split; [|split].
    + reflexivity.
    + intros Hne. now destruct Hne.
    + split; reflexivity.
Qed.

Lemma get_poster_from_pt_gen_response_spec_witness :
  get_poster_from_pt_gen_response (Sample.env_ok "[img]http://cdn/x.jpg[/img]")
    Sample.nested_cover "api" "token" None Sample.w0
  = process_poster (Sample.env_ok "[img]http://cdn/x.jpg[/img]") (PStr "http://a/b.jpg")
      "api" "token" None
      (logged [Lit ("Found poster URL in nested field " +:+ PyStr.dquote +:+ "data.");
               Lit "cover"; Lit PyStr.dquote; Lit ": "; Val (PStr "http://a/b.jpg")]
         Sample.w0)
  ∧ get_poster_from_pt_gen_response (Sample.env_ok "u") ∅ "api" "token" None Sample.w0
    = (Ret (false, "No poster URL found in PT-Gen response"),
       logged [Lit "No poster URL found in PT-Gen response"] Sample.w0).
Proof.
  split.
  - apply (proj1 (proj2 (get_poster_from_pt_gen_response_spec
                           (Sample.env_ok "[img]http://cdn/x.jpg[/img]")
                           Sample.nested_cover "api" "token" None Sample.w0 _
                           (PStr "http://a/b.jpg") eq_refl))).
    discriminate.
  - assert (Hget : get_poster_url_from_data ∅ Sample.w0
                   = (Ret (PStr ""),
                      logged [Lit "No poster URL found in PT-Gen response"] Sample.w0))
      by (vm_compute; reflexivity).
    exact (proj1 (get_poster_from_pt_gen_response_spec (Sample.env_ok "u") ∅
                    "api" "token" None Sample.w0 _ (PStr "") Hget) eq_refl).
Defined.


(** * Further properties *)

(** ** Lengths *)

Section LengthFacts.

















End LengthFacts.

(** ** What a run leaves untouched *)

Section Preserves.

Variable R : world → world → Prop.

Hypothesis R_refl : ∀ w, R w w.
Hypothesis R_trans : ∀ w1 w2 w3, R w1 w2 → R w2 w3 → R w1 w3.
Hypothesis R_print : ∀ line w, R w (logged line w).
Hypothesis R_insert :
  ∀ q n w, (∀ n0, fs w !! q = Some n0 → same_kind n0 n = true) →
           R w (set_fs (<[q := n]> (fs w)) w).
Hypothesis R_request :
  ∀ req w, R w (MkWorld (fs w) (stdout w) (requests_log w ++ [req])).

Lemma preserves_ret {A} (a : A) : preserves R (mret a : M A).
Proof. intros w. apply R_refl. Qed.

Lemma preserves_raise {A} (e : exn) : preserves R (raise e : M A).
Proof. intros w. apply R_refl. Qed.

Lemma preserves_lift {A} (r : result A) : preserves R (lift r).
Proof. intros w. apply R_refl. Qed.

Lemma preserves_print (line : list frag) : preserves R (print line).
Proof. intros w. apply R_print. Qed.

Lemma preserves_bind {A B} (m : M A) (k : A → M B) :
  preserves R m → (∀ a, preserves R (k a)) → preserves R (m ≫= k).
Proof.
  intros Hm Hk w. unfold mbind, M_bind. specialize (Hm w).
  destruct (m w) as [[a|e] w1]; simpl in *; [|exact Hm].
  eapply R_trans; [exact Hm | apply Hk].
Qed.

Lemma preserves_try_except {A} (body : M A) (handler : exn → M A) :
  preserves R body → (∀ e, preserves R (handler e)) →
  preserves R (try_except body handler).
Proof.
  intros Hb Hh w. unfold try_except. specialize (Hb w).
  destruct (body w) as [[a|e] w1]; simpl in *; [exact Hb|].
  eapply R_trans; [exact Hb | apply Hh].
Qed.

Lemma preserves_for_fields (fields : list string) body orelse :
  (∀ k, preserves R (body k)) → preserves R orelse →
  preserves R (for_fields fields body orelse).
Proof.
  intros Hbody Helse. induction fields as [|k fields IH]; [exact Helse|].
  cbn [for_fields]. apply preserves_bind; [apply Hbody|].
  intros [v|]; [apply preserves_ret | exact IH].
Qed.

Lemma preserves_check_field (c : pyval) (where_ k : string) :
  preserves R (check_field c where_ k).
Proof.
  unfold check_field. apply preserves_bind; [apply preserves_lift|].
  intros [|]; [|apply preserves_ret].
  apply preserves_bind; [apply preserves_lift|]. intros v.
  destruct (truthy v); [|apply preserves_ret].
  apply preserves_bind; [apply preserves_lift|]. intros u.
  apply preserves_bind; [apply preserves_print|]. intros _. apply preserves_ret.
Qed.

Lemma preserves_get_poster_url_from_data (data : gmap string pyval) :
  preserves R (get_poster_url_from_data data).
Proof.
  unfold get_poster_url_from_data.
  assert (Hnone : preserves R
            (print [Lit "No poster URL found in PT-Gen response"];; mret (PStr ""))).
  { apply preserves_bind; [apply preserves_print|]. intros _. apply preserves_ret. }
  apply preserves_for_fields; [intros k; apply preserves_check_field|].
  apply preserves_bind; [apply preserves_lift|]. intros [|]; [|exact Hnone].
  apply preserves_for_fields; [|exact Hnone].
  intros k. apply preserves_bind; [apply preserves_lift|].
  intros nested. apply preserves_check_field.
Qed.

Lemma set_fs_same (w : world) : set_fs (fs w) w = w.
Proof. now destruct w. Qed.

Lemma preserves_mkdirs (names : list string) (w : world) :
  R w (set_fs (Os.mkdirs names (fs w)) w).
Proof.
  revert w; induction names as [|name names IH]; intros w; cbn [Os.mkdirs].
  - rewrite set_fs_same. apply R_refl.
  - destruct (fs w !! name) as [n|] eqn:Hn; [apply IH|].
    eapply R_trans.
    + apply (R_insert name Dir w). intros n0 Hn0. congruence.
    + exact (IH (set_fs (<[name := Dir]> (fs w)) w)).
Qed.

Lemma preserves_makedirs (E : env) (name : string) : preserves R (Os.makedirs E name).
Proof.
  intros w. unfold Os.makedirs.
  destruct (negb (PyStr.nonempty name)); [apply R_refl|].
  destruct (makedirs_fault E name w) as [[e n]|]; [apply preserves_mkdirs|].
  destruct (fs w !! name) as [[c|]|]; apply preserves_mkdirs.
Qed.

Lemma preserves_open_wb (E : env) (path : string) : preserves R (Os.open_wb E path).
Proof.
  intros w. unfold Os.open_wb.
  destruct (negb (PyStr.nonempty path)); [apply R_refl|].
  destruct (PyStr.endswith "/" path); [apply R_refl|].
  destruct (if PyStr.nonempty (PosixPath.dirname path) then _ else _) as [[c|]|];
    try apply R_refl.
  destruct (PosixPath.names_directory path); [apply R_refl|].
  destruct (open_fault E path w); [apply R_refl|].
  destruct (fs w !! path) as [[c|]|] eqn:Hp; try apply R_refl;
    apply R_insert; intros n0 Hn0; rewrite Hp in Hn0;
    first [discriminate | injection Hn0 as <-; reflexivity].
Qed.

Lemma preserves_write (E : env) (path : string) (chunk : list byte) :
  preserves R (Os.write E path chunk).
Proof.
  intros w. unfold Os.write.
  destruct (write_fault E path chunk w); [apply R_refl|].
  destruct (fs w !! path) as [[c|]|] eqn:Hp; try apply R_refl.
  apply R_insert. intros n0 Hn0. rewrite Hp in Hn0. injection Hn0 as <-. reflexivity.
Qed.

Lemma preserves_write_chunks (E : env) (path : string) (chunks : list (list byte)) :
  preserves R (write_chunks E path chunks).
Proof.
  induction chunks as [|chunk chunks IH]; [apply preserves_ret|].
  cbn [write_chunks]. apply preserves_bind; [|intros _; exact IH].
  destruct chunk; [apply preserves_ret | apply preserves_write].
Qed.

Lemma preserves_http_get (E : env) (req : request) : preserves R (http_get E req).
Proof. intros w. apply R_request. Qed.

(** The try block of the downloader after the status test. *)
Lemma preserves_download_tail (E : env) (path : string) (response : response) :
  preserves R
    (Os.makedirs E (PosixPath.dirname path);;
     Os.open_wb E path;;
     write_chunks E path (body_chunks response);;
     (match body_error response with
      | Some e => raise e
      | None => mret tt
      end);;
     print [Lit "Poster downloaded successfully to: "; Lit path];;
     mret (true, path)).
Proof.
  apply preserves_bind; [apply preserves_makedirs|]. intros _.
  apply preserves_bind; [apply preserves_open_wb|]. intros _.
  apply preserves_bind; [apply preserves_write_chunks|]. intros _.
  apply preserves_bind.
  { destruct (body_error response); [apply preserves_raise | apply preserves_ret]. }
  intros _. apply preserves_bind; [apply preserves_print|]. intros _.
  apply preserves_ret.
Qed.

Lemma preserves_download_poster_except (e : exn) : preserves R (download_poster_except e).
Proof.
  unfold download_poster_except.
  destruct (issubclass (exn_cls e) Timeout);
    [|destruct (issubclass (exn_cls e) RequestException);
      [|destruct (issubclass (exn_cls e) IOError)]];
    (apply preserves_bind; [apply preserves_print | intros _; apply preserves_ret]).
Qed.

Lemma preserves_download_poster (E : env) (url : pyval) (path : string) :
  preserves R (download_poster E url path).
Proof.
  unfold download_poster.
  apply preserves_try_except; [|apply preserves_download_poster_except].
  unfold download_poster_try.
  destruct (negb (truthy url)); [apply preserves_ret|].
  apply preserves_bind; [apply preserves_print|]. intros _.
  apply preserves_bind; [apply preserves_http_get|]. intros response.
  destruct (negb (status_code response =? 200)); [apply preserves_ret|].
  apply preserves_download_tail.
Qed.

End Preserves.

(** ** The three relations *)

Section Relations.

Lemma same_io_refl (w : world) : same_io w w.
Proof. split; reflexivity. Qed.

Lemma same_io_trans (w1 w2 w3 : world) : same_io w1 w2 → same_io w2 w3 → same_io w1 w3.
Proof. intros [Hf Hl] [Hf' Hl']. split; congruence. Qed.

Lemma same_io_print (line : list frag) (w : world) : same_io w (logged line w).
Proof. split; reflexivity. Qed.

Lemma same_log_refl (w : world) : same_log w w.
Proof. reflexivity. Qed.

Lemma same_log_trans (w1 w2 w3 : world) :
  same_log w1 w2 → same_log w2 w3 → same_log w1 w3.
Proof. unfold same_log. congruence. Qed.

Lemma same_log_print (line : list frag) (w : world) : same_log w (logged line w).
Proof. reflexivity. Qed.

Lemma same_kind_refl (n : node) : same_kind n n = true.
Proof. now destruct n. Qed.

Lemma same_kind_trans (n1 n2 n3 : node) :
  same_kind n1 n2 = true → same_kind n2 n3 = true → same_kind n1 n3 = true.
Proof. destruct n1, n2, n3; cbn; congruence. Qed.

Lemma nothing_lost_refl (w : world) : nothing_lost w w.
Proof. intros q n Hq. exists n. split; [exact Hq | apply same_kind_refl]. Qed.

Lemma nothing_lost_trans (w1 w2 w3 : world) :
  nothing_lost w1 w2 → nothing_lost w2 w3 → nothing_lost w1 w3.
Proof.
  intros H12 H23 q n Hq.
  destruct (H12 q n Hq) as (n2 & Hq2 & Hk2).
  destruct (H23 q n2 Hq2) as (n3 & Hq3 & Hk3).
  exists n3. split; [exact Hq3 | eapply same_kind_trans; eauto].
Qed.

Lemma nothing_lost_print (line : list frag) (w : world) : nothing_lost w (logged line w).
Proof. intros q n Hq. exists n. split; [exact Hq | apply same_kind_refl]. Qed.

Lemma nothing_lost_insert (q : string) (n : node) (w : world) :
  (∀ n0, fs w !! q = Some n0 → same_kind n0 n = true) →
  nothing_lost w (set_fs (<[q := n]> (fs w)) w).
Proof.
  intros Hkind q' n' Hq'. cbn. destruct (decide (q = q')) as [<-|Hne].
  - exists n. rewrite lookup_insert_eq. split; [reflexivity | now apply Hkind].
  - exists n'. rewrite lookup_insert_ne by exact Hne.
    split; [exact Hq' | apply same_kind_refl].
Qed.

Lemma nothing_lost_request (req : request) (w : world) :
  nothing_lost w (MkWorld (fs w) (stdout w) (requests_log w ++ [req])).
Proof. intros q n Hq. exists n. split; [exact Hq | apply same_kind_refl]. Qed.

End Relations.

(** X1.  Extraction only prints: whatever the mapping and the outcome, the
    file system and the request log are the ones it started with; and when
    extraction finds nothing or raises, the same holds of the wrapper. *)
Theorem get_poster_url_from_data_only_prints (E : env) (data : gmap string pyval)
    (api_url api_token : string) (temp_dir : option string) (w : world) :
  same_io w (get_poster_url_from_data data w).2
  ∧ ((get_poster_url_from_data data w).1 = Ret (PStr "")
     ∨ (∃ e, (get_poster_url_from_data data w).1 = Raise e) →
     same_io w (get_poster_from_pt_gen_response E data api_url api_token temp_dir w).2).
Proof.
  assert (Hio : same_io w (get_poster_url_from_data data w).2).
  { apply (preserves_get_poster_url_from_data same_io
             same_io_refl same_io_trans same_io_print). }
  split; [exact Hio|].
  unfold get_poster_from_pt_gen_response, mbind, M_bind.
  destruct (get_poster_url_from_data data w) as [[v|e] w1]; simpl in *.
  - intros [[= ->] | [e [=]]]. exact Hio.
  - intros _. exact Hio.
Qed.

Lemma get_poster_url_from_data_only_prints_witness :
  same_io Sample.w_stale
    (get_poster_from_pt_gen_response (Sample.env_ok "u") Sample.null_data "api" "token"
       None Sample.w_stale).2
  ∧ same_io Sample.w_stale
      (get_poster_from_pt_gen_response (Sample.env_ok "u") {[ "title" := PStr "t" ]}
         "api" "token" None Sample.w_stale).2.
Proof.
  split.
  - apply (proj2 (get_poster_url_from_data_only_prints (Sample.env_ok "u")
                    Sample.null_data "api" "token" None Sample.w_stale)).
    right. eexists. vm_compute. reflexivity.
  - apply (proj2 (get_poster_url_from_data_only_prints (Sample.env_ok "u")
                    {[ "title" := PStr "t" ]} "api" "token" None Sample.w_stale)).
    left. vm_compute. reflexivity.
Defined.

(** X2.  The downloader removes nothing: whatever the environment does and
    however the download ends, every path that named a file still names a
    file afterwards, and every path that named a directory still names a
    directory. *)
Theorem download_poster_removes_nothing (E : env) (url : pyval) (save_path : string)
    (w : world) (q : string) (n : node) :
  fs w !! q = Some n →
  ∃ n', fs (download_poster E url save_path w).2 !! q = Some n'
        ∧ same_kind n n' = true.
Proof.
  apply (preserves_download_poster nothing_lost nothing_lost_refl nothing_lost_trans
           nothing_lost_print nothing_lost_insert nothing_lost_request E url save_path w).
Qed.

Lemma download_poster_removes_nothing_witness :
  ∃ n', fs (download_poster (Sample.env_ok "u") (PStr "http://a/b.jpg")
              "/tmp/poster_42.jpg" Sample.w_stale).2 !! "/tmp/poster_42.jpg" = Some n'
        ∧ same_kind (File [x00]) n' = true.
Proof.
  apply (download_poster_removes_nothing (Sample.env_ok "u") (PStr "http://a/b.jpg")
           "/tmp/poster_42.jpg" Sample.w_stale "/tmp/poster_42.jpg" (File [x00])).
  reflexivity.
Defined.

(** ** More on the downloader *)

Section DownloadMore.

Variable E : env.

(** The downloader, once the request has been answered. *)
Lemma download_poster_after_get (url : pyval) (path : string) (w : world) :
  truthy url = true →
  download_poster E url path w =
  let w1 := (http_get E (MkRequest url headers 30 true)
               (logged [Lit "Starting poster download from: "; Val url] w)).2 in
  match requests_get E (MkRequest url headers 30 true) with
  | Raise e => download_poster_except e w1
  | Ret response =>
      if negb (status_code response =? 200) then
        (Ret (false, "Failed to download poster, status code: "
                     +:+ PyStr.of_int (status_code response)), w1)
      else
        try_except
          (Os.makedirs E (PosixPath.dirname path);;
           Os.open_wb E path;;
           write_chunks E path (body_chunks response);;
           (match body_error response with
            | Some e => raise e
            | None => mret tt
            end);;
           print [Lit "Poster downloaded successfully to: "; Lit path];;
           mret (true, path))
          download_poster_except w1
  end.
Proof.
  intros Hurl. unfold download_poster. unfold try_except at 1.
  rewrite download_poster_try_get by exact Hurl. cbv zeta.
  destruct (requests_get E _) as [response|e]; [|reflexivity].
  destruct (negb (status_code response =? 200)); reflexivity.
Qed.

Lemma download_poster_except_fs (e : exn) (w : world) :
  fs (download_poster_except e w).2 = fs w.
Proof. destruct e as [[] m]; reflexivity. Qed.







End DownloadMore.

(** X3.  With a non-empty URL the downloader issues exactly one request,
    whatever happens next: the URL as given, the fixed headers, a timeout of
    30 and streaming. *)
Theorem download_poster_one_request (E : env) (url : pyval) (save_path : string)
    (w : world) :
  truthy url = true →
  requests_log (download_poster E url save_path w).2
  = (requests_log w ++ [MkRequest url headers 30 true])%list.
Proof.
  intros Hurl. rewrite download_poster_after_get by exact Hurl. cbv zeta.
  set (w1 := (http_get E _ _).2).
  assert (Hw1 : requests_log w1 = (requests_log w ++ [MkRequest url headers 30 true])%list)
    by reflexivity.
  rewrite <- Hw1.
  assert (Hexc : ∀ e, preserves same_log (download_poster_except e)).
  { intros e. apply (preserves_download_poster_except same_log
                       same_log_refl same_log_trans same_log_print). }
  destruct (requests_get E _) as [response|e]; [|apply Hexc].
  destruct (negb (status_code response =? 200)); [reflexivity|].
  apply (preserves_try_except same_log same_log_trans); [|exact Hexc].
  apply (preserves_download_tail same_log same_log_refl same_log_trans same_log_print).
  intros q n w0 _. reflexivity.
Qed.

Lemma download_poster_one_request_witness :
  requests_log (download_poster (Sample.env_get_raises (MkExn Timeout "t"))
                  (PStr "http://a/b.jpg") "/tmp/p.jpg" Sample.w0).2
  = (requests_log Sample.w0 ++ [MkRequest (PStr "http://a/b.jpg") headers 30 true])%list.
Proof.
  apply (download_poster_one_request (Sample.env_get_raises (MkExn Timeout "t"))
           (PStr "http://a/b.jpg") "/tmp/p.jpg" Sample.w0).
  reflexivity.
Defined.





(** X6.  When the request itself raises, the downloader returns the failure
    of the exception's cause and the file system is the one it started
    with: no directory is created and nothing is written. *)
Theorem download_poster_request_error (E : env) (url : pyval) (save_path : string)
    (w : world) (e : exn) :
  truthy url = true →
  requests_get E (MkRequest url headers 30 true) = Raise e →
  (download_poster E url save_path w).1 = Ret (false, cause_message e)
  ∧ fs (download_poster E url save_path w).2 = fs w.
Proof.
  intros Hurl Hget. rewrite download_poster_after_get by exact Hurl. cbv zeta.
  rewrite Hget. split; [apply download_poster_except_ret|].
  now rewrite download_poster_except_fs.
Qed.

Lemma download_poster_request_error_witness :
  (download_poster (Sample.env_get_raises (MkExn IOError "socket closed"))
     (PStr "http://a/b.jpg") "/tmp/p.jpg" Sample.w_stale).1
  = Ret (false, "Failed to save poster file: socket closed")
  ∧ fs (download_poster (Sample.env_get_raises (MkExn IOError "socket closed"))
          (PStr "http://a/b.jpg") "/tmp/p.jpg" Sample.w_stale).2 = fs Sample.w_stale.
Proof.
  apply (download_poster_request_error (Sample.env_get_raises (MkExn IOError "socket closed"))
           (PStr "http://a/b.jpg") "/tmp/p.jpg" Sample.w_stale
           (MkExn IOError "socket closed")).
  - reflexivity.
  - reflexivity.
Defined.

(** ** More on the orchestrator *)

Section EnvExt.

(** The downloader reads four oracles of the environment. *)
Variables E E' : env.
Hypothesis same_get : requests_get E' = requests_get E.
Hypothesis same_makedirs : makedirs_fault E' = makedirs_fault E.
Hypothesis same_open : open_fault E' = open_fault E.
Hypothesis same_write : write_fault E' = write_fault E.

Lemma write_chunks_env_ext (path : string) (chunks : list (list byte)) :
  write_chunks E' path chunks = write_chunks E path chunks.
Proof.
  induction chunks as [|chunk chunks IH]; [reflexivity|].
  cbn [write_chunks]. rewrite IH. unfold Os.write. now rewrite same_write.
Qed.

Lemma download_poster_env_ext (url : pyval) (path : string) (w : world) :
  download_poster E' url path w = download_poster E url path w.
Proof.
  destruct (truthy url) eqn:Hurl.
  - rewrite !download_poster_after_get by exact Hurl. cbv zeta.
    unfold http_get. rewrite same_get.
    destruct (requests_get E _) as [response|e]; [|reflexivity].
    destruct (negb (status_code response =? 200)); [reflexivity|].
    unfold Os.makedirs, Os.open_wb.
    now rewrite same_makedirs, same_open, write_chunks_env_ext.
  - unfold download_poster, download_poster_try. now rewrite Hurl.
Qed.

End EnvExt.

Section OrchestratorMore.

Variable E : env.

Lemma download_poster_with_upload_picture u (url : pyval) (path : string) (w : world) :
  download_poster (with_upload_picture u E) url path w = download_poster E url path w.
Proof. now apply download_poster_env_ext. Qed.

Lemma no_sep_inv (c : ascii) (t : string) :
  PyStr.contains "/" (String c t) = false →
  c ≠ "/"%char ∧ PyStr.contains "/" t = false.
Proof.
  rewrite contains_unfold. intros H. apply orb_false_elim in H as [Hhead Htail].
  split; [|exact Htail]. intros ->. cbn [String.prefix] in Hhead.
  destruct (ascii_dec "/" "/"); [|congruence]. now rewrite prefix_nil in Hhead.
Qed.

Lemma no_sep_cons (c : ascii) (t : string) :
  c ≠ "/"%char → PyStr.contains "/" t = false → PyStr.contains "/" (String c t) = false.
Proof.
  intros Hc Ht. rewrite contains_unfold, Ht, orb_false_r. cbn [String.prefix].
  destruct (ascii_dec "/" c) as [<-|]; [now destruct Hc | reflexivity].
Qed.

Lemma no_sep_app (a b : string) :
  PyStr.contains "/" a = false → PyStr.contains "/" b = false →
  PyStr.contains "/" (a +:+ b) = false.
Proof.
  intros Ha Hb. induction a as [|c a IH]; [exact Hb|].
  apply no_sep_inv in Ha as [Hc Ha].
  change (String c a +:+ b) with (String c (a +:+ b)).
  apply no_sep_cons; [exact Hc | now apply IH].
Qed.

Lemma no_sep_uint (d : Decimal.uint) :
  PyStr.contains "/" (NilEmpty.string_of_uint d) = false.
Proof.
  induction d; cbn [NilEmpty.string_of_uint]; [reflexivity | ..];
    (apply no_sep_cons; [discriminate | assumption]).
Qed.

(** The decimal rendering of an integer has no separator. *)
Lemma no_sep_of_int (z : Z) : PyStr.contains "/" (PyStr.of_int z) = false.
Proof.
  unfold PyStr.of_int, NilZero.string_of_int, NilZero.string_of_uint.
  destruct (Z.to_int z) as [d|d].
  - destruct d; try reflexivity; apply no_sep_uint.
  - apply no_sep_cons; [discriminate|].
    destruct d; try reflexivity; apply no_sep_uint.
Qed.

Lemma temp_name_no_sep (z : Z) :
  PyStr.contains "/" ("poster_" +:+ PyStr.of_int z +:+ ".jpg") = false.
Proof.
  apply no_sep_app; [reflexivity|].
  apply no_sep_app; [apply no_sep_of_int | reflexivity].
Qed.



(** The downloader on a destination without separator. *)
Lemma download_poster_bare_result (url : pyval) (path : string) (w : world)
    (resp : response) :
  PyStr.contains "/" path = false →
  truthy url = true →
  requests_get E (MkRequest url headers 30 true) = Ret resp →
  status_code resp = 200 →
  (download_poster E url path w).1
  = Ret (false, "Failed to save poster file: [Errno 2] No such file or directory: ''").
Proof.
  intros Hbare Hurl Hget Hstatus. apply dirname_bare in Hbare.
  rewrite download_poster_after_get by exact Hurl. cbv zeta.
  rewrite Hget, Hstatus, Hbare. reflexivity.
Qed.

(** The downloader on an answer other than 200, with the world it leaves. *)
Lemma download_poster_non_200_world (url : pyval) (path : string) (w : world)
    (resp : response) :
  truthy url = true →
  requests_get E (MkRequest url headers 30 true) = Ret resp →
  status_code resp ≠ 200 →
  download_poster E url path w
  = (Ret (false, "Failed to download poster, status code: "
                 +:+ PyStr.of_int (status_code resp)),
     (http_get E (MkRequest url headers 30 true)
        (logged [Lit "Starting poster download from: "; Val url] w)).2).
Proof.
  intros Hurl Hget Hstatus. rewrite download_poster_after_get by exact Hurl. cbv zeta.
  rewrite Hget. apply Z.eqb_neq in Hstatus. now rewrite Hstatus.
Qed.

End OrchestratorMore.

(** X7.  A failed download stops the orchestrator before the upload: it
    returns the downloader's message behind the download-stage prefix, and
    the whole outcome, result and world, is the same whatever uploader the
    environment has. *)
Theorem process_poster_download_failure (E : env) (url : pyval)
    (api_url api_token : string) (temp_dir : option string) (w w1 w2 : world)
    (p m : string) :
  resolve_temp_file_path E url temp_dir w = (Ret p, w1) →
  download_poster E url p (at_download url p w1) = (Ret (false, m), w2) →
  (process_poster E url api_url api_token temp_dir w).1
  = Ret (false, "Failed to download poster: " +:+ m)
  ∧ ∀ u, process_poster (with_upload_picture u E) url api_url api_token temp_dir w
         = process_poster E url api_url api_token temp_dir w.
Proof.
  intros Hres Hdown. split.
  - rewrite process_poster_result, Hres. unfold try_except.
    now rewrite process_poster_try_download, Hdown.
  - intros u. unfold process_poster.
    change (resolve_temp_file_path (with_upload_picture u E) url temp_dir w)
      with (resolve_temp_file_path E url temp_dir w).
    rewrite Hres. unfold try_finally, try_except.
    rewrite !process_poster_try_download, download_poster_with_upload_picture, Hdown.
    reflexivity.
Qed.

Lemma process_poster_download_failure_witness :
  (process_poster (Sample.env_status 404) (PStr "http://a/b.jpg") "api" "token" None
     Sample.w0).1
  = Ret (false, "Failed to download poster: Failed to download poster, status code: 404")
  ∧ ∀ u, process_poster (with_upload_picture u (Sample.env_status 404))
           (PStr "http://a/b.jpg") "api" "token" None Sample.w0
         = process_poster (Sample.env_status 404) (PStr "http://a/b.jpg") "api" "token"
             None Sample.w0.
Proof.
  eapply (process_poster_download_failure (Sample.env_status 404) (PStr "http://a/b.jpg")
            "api" "token" None Sample.w0 Sample.w0 _ "/tmp/poster_42.jpg"
            "Failed to download poster, status code: 404").
  - reflexivity.
  - vm_compute. reflexivity.
Defined.

(** X8.  After a successful download, an uploader that reports failure
    makes the orchestrator return its message behind the upload-stage
    prefix, markup included; an uploader that raises makes it return the
    text of the exception behind the generic prefix. *)
Theorem process_poster_upload_failure (E : env) (url : pyval)
    (api_url api_token : string) (temp_dir : option string) (w w1 w2 : world)
    (p d : string) :
  resolve_temp_file_path E url temp_dir w = (Ret p, w1) →
  download_poster E url p (at_download url p w1) = (Ret (true, d), w2) →
  (∀ m w3, upload_picture E api_url api_token p (at_upload w2) = (Ret (false, m), w3) →
           (process_poster E url api_url api_token temp_dir w).1
           = Ret (false, "Failed to upload poster: " +:+ m))
  ∧ (∀ e w3, upload_picture E api_url api_token p (at_upload w2) = (Raise e, w3) →
             (process_poster E url api_url api_token temp_dir w).1
             = Ret (false, "Error during poster processing: " +:+ exn_msg e)).
Proof.
  intros Hres Hdown. split.
  - intros m w3 Hup. rewrite process_poster_result, Hres. unfold try_except.
    now rewrite process_poster_try_download, Hdown, Hup.
  - intros e w3 Hup. rewrite process_poster_result, Hres. unfold try_except.
    now rewrite process_poster_try_download, Hdown, Hup.
Qed.

Lemma process_poster_upload_failure_witness :
  (process_poster
     (with_upload_picture (λ _ _ _ w, (Ret (false, "[img]quota exceeded[/img]"), w))
        (Sample.env_ok "u"))
     (PStr "http://a/b.jpg") "api" "token" None Sample.w0).1
  = Ret (false, "Failed to upload poster: [img]quota exceeded[/img]")
  ∧ (process_poster
       (with_upload_picture (λ _ _ _ w, (Raise (MkExn KeyError "'url'"), w))
          (Sample.env_ok "u"))
       (PStr "http://a/b.jpg") "api" "token" None Sample.w0).1
    = Ret (false, "Error during poster processing: 'url'").
Proof.
  split.
  - set (E1 := with_upload_picture
                 (λ _ _ _ w, (Ret (false, "[img]quota exceeded[/img]"), w))
                 (Sample.env_ok "u")).
    assert (Hres : resolve_temp_file_path E1 (PStr "http://a/b.jpg") None Sample.w0
                   = (Ret "/tmp/poster_42.jpg", Sample.w0)) by (vm_compute; reflexivity).
    assert (Hdown : download_poster E1 (PStr "http://a/b.jpg") "/tmp/poster_42.jpg"
                      (at_download (PStr "http://a/b.jpg") "/tmp/poster_42.jpg" Sample.w0)
                    = (Ret (true, "/tmp/poster_42.jpg"),
                       (download_poster E1 (PStr "http://a/b.jpg") "/tmp/poster_42.jpg"
                          (at_download (PStr "http://a/b.jpg") "/tmp/poster_42.jpg"
                             Sample.w0)).2)) by (vm_compute; reflexivity).
    eapply (proj1 (process_poster_upload_failure E1 (PStr "http://a/b.jpg") "api" "token"
                     None Sample.w0 Sample.w0 _ "/tmp/poster_42.jpg" "/tmp/poster_42.jpg"
                     Hres Hdown) "[img]quota exceeded[/img]").
    reflexivity.
  - set (E1 := with_upload_picture (λ _ _ _ w, (Raise (MkExn KeyError "'url'"), w))
                 (Sample.env_ok "u")).
    assert (Hres : resolve_temp_file_path E1 (PStr "http://a/b.jpg") None Sample.w0
                   = (Ret "/tmp/poster_42.jpg", Sample.w0)) by (vm_compute; reflexivity).
    assert (Hdown : download_poster E1 (PStr "http://a/b.jpg") "/tmp/poster_42.jpg"
                      (at_download (PStr "http://a/b.jpg") "/tmp/poster_42.jpg" Sample.w0)
                    = (Ret (true, "/tmp/poster_42.jpg"),
                       (download_poster E1 (PStr "http://a/b.jpg") "/tmp/poster_42.jpg"
                          (at_download (PStr "http://a/b.jpg") "/tmp/poster_42.jpg"
                             Sample.w0)).2)) by (vm_compute; reflexivity).
    eapply (proj2 (process_poster_upload_failure E1 (PStr "http://a/b.jpg") "api" "token"
                     None Sample.w0 Sample.w0 _ "/tmp/poster_42.jpg" "/tmp/poster_42.jpg"
                     Hres Hdown) (MkExn KeyError "'url'")).
    reflexivity.
Defined.

(** X9.  With the empty string as temporary directory the orchestrator
    cannot succeed: the temporary path is a bare file name, so a non-empty
    URL answered with 200 still ends in the download-stage failure of the
    local I/O handler. *)
Theorem process_poster_empty_temp_dir (E : env) (url : pyval)
    (api_url api_token : string) (w : world) (resp : response) :
  truthy url = true →
  requests_get E (MkRequest url headers 30 true) = Ret resp →
  status_code resp = 200 →
  (process_poster E url api_url api_token (Some "") w).1
  = Ret (false,
         "Failed to download poster: "
         +:+ "Failed to save poster file: [Errno 2] No such file or directory: ''").
Proof.
  intros Hurl Hget Hstatus. rewrite process_poster_result.
  set (name := "poster_" +:+ PyStr.of_int (Z.of_N (id_of E url)) +:+ ".jpg").
  assert (Hres : resolve_temp_file_path E url (Some "") w = (Ret name, w)) by reflexivity.
  rewrite Hres. unfold try_except. rewrite process_poster_try_download.
  pose proof (download_poster_bare_result E url name (at_download url name w) resp
                (temp_name_no_sep _) Hurl Hget Hstatus) as Hdown.
  destruct (download_poster E url name (at_download url name w)) as [r w2].
  simpl in Hdown. subst r. reflexivity.
Qed.

Lemma process_poster_empty_temp_dir_witness :
  (process_poster (Sample.env_ok "[img]http://cdn/x.jpg[/img]") (PStr "http://a/b.jpg")
     "api" "token" (Some "") Sample.w0).1
  = Ret (false,
         "Failed to download poster: "
         +:+ "Failed to save poster file: [Errno 2] No such file or directory: ''").
Proof.
  apply (process_poster_empty_temp_dir (Sample.env_ok "[img]http://cdn/x.jpg[/img]")
           (PStr "http://a/b.jpg") "api" "token" Sample.w0 Sample.ok_response).
  - reflexivity.
  - reflexivity.
  - reflexivity.
Defined.

(** X10.  When no temporary directory is given and [tempfile.gettempdir]
    raises, the orchestrator returns the text of the exception behind the
    generic prefix and does nothing else: one line is printed, no request is
    issued and the file system is not touched. *)
Theorem process_poster_no_temp_dir (E : env) (url : pyval)
    (api_url api_token : string) (w : world) (e : exn) :
  gettempdir E = Raise e →
  process_poster E url api_url api_token None w
  = (Ret (false, "Error during poster processing: " +:+ exn_msg e),
     logged [Lit "Error during poster processing: "; Lit (exn_msg e)] w).
Proof.
  intros Htmp. unfold process_poster, resolve_temp_file_path.
  unfold mbind, M_bind, lift. rewrite Htmp. reflexivity.
Qed.

Lemma process_poster_no_temp_dir_witness :
  process_poster Sample.env_no_tempdir (PStr "http://a/b.jpg") "api" "token" None
    Sample.w_stale
  = (Ret (false,
          "Error during poster processing: [Errno 2] No usable temporary directory found"),
     logged [Lit "Error during poster processing: ";
             Lit "[Errno 2] No usable temporary directory found"] Sample.w_stale).
Proof.
  apply (process_poster_no_temp_dir Sample.env_no_tempdir (PStr "http://a/b.jpg")
           "api" "token" Sample.w_stale
           (MkExn IOError "[Errno 2] No usable temporary directory found")).
  reflexivity.
Defined.

(** X12.  Cleanup deletes whatever file is at the temporary path, not only
    one this run wrote: when a file is already there and the server answers
    with a status other than 200, nothing is downloaded, the download-stage
    failure is returned, and, [os.remove] not failing, the file is gone
    afterwards. *)
Theorem process_poster_removes_stale_file (E : env) (url : pyval)
    (api_url api_token : string) (temp_dir : option string) (w w1 : world)
    (p : string) (c : list byte) (resp : response) :
  resolve_temp_file_path E url temp_dir w = (Ret p, w1) →
  fs w !! p = Some (File c) →
  truthy url = true →
  requests_get E (MkRequest url headers 30 true) = Ret resp →
  status_code resp ≠ 200 →
  (∀ w', remove_fault E p w' = None) →
  (process_poster E url api_url api_token temp_dir w).1
  = Ret (false,
         "Failed to download poster: "
         +:+ ("Failed to download poster, status code: "
              +:+ PyStr.of_int (status_code resp)))
  ∧ fs (process_poster E url api_url api_token temp_dir w).2 !! p = None.
Proof.
  intros Hres Hfile Hurl Hget Hstatus Hrm.
  pose proof (resolve_temp_file_path_nonempty E _ _ _ _ _ Hres) as Hp.
  pose proof (resolve_temp_file_path_world E _ _ _ _ _ Hres) as ->.
  set (m := "Failed to download poster, status code: " +:+ PyStr.of_int (status_code resp)).
  set (w2 := (http_get E (MkRequest url headers 30 true)
                (logged [Lit "Starting poster download from: "; Val url]
                   (at_download url p w))).2).
  assert (Hbody : try_except (process_poster_try E url api_url api_token p)
                    process_poster_except w
                  = (Ret (false, "Failed to download poster: " +:+ m), w2)).
  { unfold try_except. rewrite process_poster_try_download.
    now rewrite (download_poster_non_200_world E url p _ resp Hurl Hget Hstatus). }
  assert (Hfile2 : fs w2 !! p = Some (File c)) by exact Hfile.
  assert (Hfin : process_poster_finally E (Some p) w2
                 = (Ret tt, logged [Lit "Temporary poster file deleted: "; Lit p]
                              (set_fs (delete p (fs w2)) w2))).
  { unfold process_poster_finally, Os.exists_. rewrite Hp, Hfile2. cbn [andb].
    unfold try_except, mbind, M_bind, Os.remove. now rewrite Hrm, Hfile2. }
  unfold process_poster. rewrite Hres. unfold try_finally. rewrite Hbody, Hfin.
  split; [reflexivity|]. cbn. apply lookup_delete_eq.
Qed.

Lemma process_poster_removes_stale_file_witness :
  (process_poster (Sample.env_status 503) (PStr "http://a/b.jpg") "api" "token" None
     Sample.w_stale).1
  = Ret (false, "Failed to download poster: Failed to download poster, status code: 503")
  ∧ fs (process_poster (Sample.env_status 503) (PStr "http://a/b.jpg") "api" "token" None
          Sample.w_stale).2 !! "/tmp/poster_42.jpg" = None.
Proof.
  apply (process_poster_removes_stale_file (Sample.env_status 503) (PStr "http://a/b.jpg")
           "api" "token" None Sample.w_stale Sample.w_stale "/tmp/poster_42.jpg" [x00]
           (MkResponse 503 [] None)).
  - reflexivity.
  - reflexivity.
  - reflexivity.
  - reflexivity.
  - discriminate.
  - reflexivity.
Defined.

(** ** More on extraction *)

Section ExtractionMore.

Lemma for_fields_raise (pre post : list string) k body orelse (w w' : world) e :
  Forall (λ k, ∀ w0, body k w0 = (Ret None, w0)) pre →
  body k w = (Raise e, w') →
  for_fields (pre ++ k :: post) body orelse w = (Raise e, w').
Proof.
  intros Hpre Hk. rewrite for_fields_skip by exact Hpre.
  cbn [for_fields]. unfold mbind, M_bind. now rewrite Hk.
Qed.

Lemma check_field_absent (c : pyval) (where_ k : string) :
  py_contains k c = Ret false → ∀ w, check_field c where_ k w = (Ret None, w).
Proof. intros H w. unfold check_field, mbind, M_bind, lift. now rewrite H. Qed.

Lemma check_field_raises (c : pyval) (where_ k : string) (e : exn) (w : world) :
  py_contains k c = Ret true → py_getitem c k = Raise e →
  check_field c where_ k w = (Raise e, w).
Proof.
  intros Hin Hget. unfold check_field, mbind, M_bind, lift. now rewrite Hin, Hget.
Qed.

(** A test of the loop finds a value only in a mapping, under the key
    tested. *)
Lemma check_field_some (c : pyval) (where_ k : string) (w w' : world) v :
  check_field c where_ k w = (Ret (Some v), w') →
  truthy v = true ∧ ∃ d, c = PDict d ∧ d !! k = Some v.
Proof.
  intros H. split; [eapply check_field_truthy, H|].
  revert H. unfold check_field, mbind, M_bind, lift.
  destruct c as [| | | | s|l|d]; cbn [py_contains py_getitem]; try discriminate.
  - destruct (PyStr.contains k s); discriminate.
  - destruct (existsb _ l); discriminate.
  - destruct (d !! k) as [u|] eqn:Hu; [|discriminate].
    destruct (truthy u); [|discriminate].
    intros [= <- _]. now exists d.
Qed.

Lemma for_fields_ret_in (P : pyval → Prop) fields body orelse (w w' : world) v :
  (∀ k w0 u w1, k ∈ fields → body k w0 = (Ret (Some u), w1) → P u) →
  (∀ w0 u w1, orelse w0 = (Ret u, w1) → P u) →
  for_fields fields body orelse w = (Ret v, w') → P v.
Proof.
  intros Hbody Helse. revert w.
  induction fields as [|k fields IH]; intros w; cbn [for_fields]; [apply Helse|].
  unfold mbind, M_bind. destruct (body k w) as [[[u|]|e] w1] eqn:Hk.
  - intros [= <- _]. eapply Hbody; [apply elem_of_cons; now left | exact Hk].
  - apply IH. intros k' w0 u w2 Hin. apply Hbody. apply elem_of_cons. now right.
  - discriminate.
Qed.

End ExtractionMore.

(** X13.  When nothing matches at top level and the value under [data] is a
    string or a list, extraction returns the empty string if no candidate
    key occurs in it (as a substring, as an element), and raises [TypeError]
    at the first candidate key that does. *)
Theorem get_poster_url_from_data_nested_sequence (data : gmap string pyval) (w : world)
    (nested : pyval) :
  Forall (λ k', present_truthy data k' = false) possible_fields →
  data !! "data" = Some nested →
  match nested with PStr _ | PList _ => True | _ => False end →
  (Forall (λ k, py_contains k nested = Ret false) possible_fields →
   (get_poster_url_from_data data w).1 = Ret (PStr ""))
  ∧ (∀ pre k post,
       possible_fields = (pre ++ k :: post)%list →
       Forall (λ k', py_contains k' nested = Ret false) pre →
       py_contains k nested = Ret true →
       ∃ e, exn_cls e = TypeError ∧ (get_poster_url_from_data data w).1 = Raise e).
Proof.
  intros Htop Hd Hseq. rewrite get_poster_url_from_data_no_top, Hd by exact Htop. split.
  - intros Hnone. rewrite for_fields_miss; [reflexivity|].
    eapply Forall_impl; [exact Hnone|]. intros k Hk. now apply check_field_absent.
  - intros pre k post Hsplit Hpre Hk. rewrite Hsplit.
    assert (Hget : ∃ e, exn_cls e = TypeError ∧ py_getitem nested k = Raise e).
    { destruct nested; try contradiction;
        (eexists; split; [|reflexivity]; reflexivity). }
    destruct Hget as (e & Hcls & Hget). exists e. split; [exact Hcls|].
    erewrite for_fields_raise; [reflexivity | |].
    + eapply Forall_impl; [exact Hpre|]. intros k' Hk'. now apply check_field_absent.
    + now apply check_field_raises.
Qed.

Lemma get_poster_url_from_data_nested_sequence_witness :
  (get_poster_url_from_data {[ "data" := PStr "n/a" ]} Sample.w0).1 = Ret (PStr "")
  ∧ (∃ e, exn_cls e = TypeError
          ∧ (get_poster_url_from_data {[ "data" := PStr "no image found" ]} Sample.w0).1
            = Raise e)
  ∧ (∃ e, exn_cls e = TypeError
          ∧ (get_poster_url_from_data {[ "data" := PList [PStr "cover"] ]} Sample.w0).1
            = Raise e).
Proof.
  split; [|split].
  - apply (proj1 (get_poster_url_from_data_nested_sequence {[ "data" := PStr "n/a" ]}
                    Sample.w0 (PStr "n/a") ltac:(repeat constructor) eq_refl I)).
    repeat constructor.
  - apply (proj2 (get_poster_url_from_data_nested_sequence
                    {[ "data" := PStr "no image found" ]} Sample.w0
                    (PStr "no image found") ltac:(repeat constructor) eq_refl I)
             ["poster"; "img"] "image" ["cover"; "posterUrl"]).
    + reflexivity.
    + repeat constructor.
    + reflexivity.
  - apply (proj2 (get_poster_url_from_data_nested_sequence
                    {[ "data" := PList [PStr "cover"] ]} Sample.w0
                    (PList [PStr "cover"]) ltac:(repeat constructor) eq_refl I)
             ["poster"; "img"; "image"] "cover" ["posterUrl"]).
    + reflexivity.
    + repeat constructor.
    + reflexivity.
Defined.

(** X14.  Extraction invents nothing: a value it returns is the empty
    string, or a truthy value stored under a candidate key, either in the
    mapping itself or in the mapping it holds under [data]. *)
Theorem get_poster_url_from_data_returns_stored (data : gmap string pyval)
    (w w' : world) (v : pyval) :
  get_poster_url_from_data data w = (Ret v, w') →
  v = PStr ""
  ∨ (truthy v = true
     ∧ ∃ k, k ∈ possible_fields
            ∧ (data !! k = Some v
               ∨ ∃ nested, data !! "data" = Some (PDict nested) ∧ nested !! k = Some v)).
Proof.
  unfold get_poster_url_from_data. intros H.
  pose (P := λ u : pyval,
          u = PStr ""
          ∨ (truthy u = true
             ∧ ∃ k, k ∈ possible_fields
                    ∧ (data !! k = Some u
                       ∨ ∃ nested, data !! "data" = Some (PDict nested)
                                   ∧ nested !! k = Some u))).
  refine (for_fields_ret_in P _ _ _ _ _ _ _ _ H).
  - intros k w0 u w1 Hin Hk. right.
    apply check_field_some in Hk as (Hu & d & [= <-] & Hlook).
    split; [exact Hu|]. exists k. split; [exact Hin | now left].
  - intros w0 u w1. unfold mbind, M_bind, lift. cbn [py_contains].
    destruct (data !! "data") as [nested|] eqn:Hd.
    + intros H'. refine (for_fields_ret_in P _ _ _ _ _ _ _ _ H').
      * intros k w2 u' w3 Hin. cbn [py_getitem]. rewrite Hd. intros Hk. right.
        apply check_field_some in Hk as (Hu & d & -> & Hlook).
        split; [exact Hu|]. exists k. split; [exact Hin|]. right. now exists d.
      * intros w2 u' w3 [= <- _]. now left.
    + intros [= <- _]. now left.
Qed.

Lemma get_poster_url_from_data_returns_stored_witness :
  PStr "http://a/b.jpg" = PStr ""
  ∨ (truthy (PStr "http://a/b.jpg") = true
     ∧ ∃ k, k ∈ possible_fields
            ∧ (Sample.nested_cover !! k = Some (PStr "http://a/b.jpg")
               ∨ ∃ nested, Sample.nested_cover !! "data" = Some (PDict nested)
                           ∧ nested !! k = Some (PStr "http://a/b.jpg"))).
Proof.
  eapply (get_poster_url_from_data_returns_stored Sample.nested_cover Sample.w0 _
            (PStr "http://a/b.jpg")).
  vm_compute. reflexivity.
Defined.



(** X16.  Every failure the orchestrator returns names its stage: the
    message starts with the download-stage prefix, the upload-stage prefix
    or the generic prefix of the exception handler. *)
Theorem process_poster_failure_prefix (E : env) (url : pyval)
    (api_url api_token : string) (temp_dir : option string) (w : world) (m : string) :
  (process_poster E url api_url api_token temp_dir w).1 = Ret (false, m) →
  PyStr.startswith "Failed to download poster: " m = true
  ∨ PyStr.startswith "Failed to upload poster: " m = true
  ∨ PyStr.startswith "Error during poster processing: " m = true.
Proof.
  intros Hres.
  destruct (process_poster_shape E url api_url api_token temp_dir w)
    as (b & m' & Hres' & Hshape).
  rewrite Hres' in Hres. injection Hres as -> ->.
  destruct Hshape as [Hb | [[r ->] | [[r ->] | [r ->]]]]; [discriminate | | |].
  - left. apply prefix_app.
  - right. left. apply prefix_app.
  - right. right. apply prefix_app.
Qed.

Lemma process_poster_failure_prefix_witness :
  PyStr.startswith "Failed to download poster: "
    "Failed to download poster: Failed to download poster, status code: 404" = true
  ∨ PyStr.startswith "Failed to upload poster: "
      "Failed to download poster: Failed to download poster, status code: 404" = true
  ∨ PyStr.startswith "Error during poster processing: "
      "Failed to download poster: Failed to download poster, status code: 404" = true.
Proof.
  apply (process_poster_failure_prefix (Sample.env_status 404) (PStr "http://a/b.jpg")
           "api" "token" None Sample.w0).
  vm_compute. reflexivity.
Defined.
